(** * Passport credential and veNATION lock arithmetic

    A shallow embedding of
    - [contracts/src/passport/Passport.sol]: the controller-gated ERC721
      credential (mint, safeMint, burn, transferFrom, safeTransferFrom), and
    - [ui/pages/lock.tsx]: [calculateVeNation] and [calculateVestingStart],
    followed by the properties of the specification stated against them. *)

From Stdlib Require Import ZArith QArith Qround Qabs Lia List Bool String Ascii DecimalString SpecFloat.
Import ListNotations.

(* ===================================================================== *)
(** * The Passport contract                                               *)
(* ===================================================================== *)

Module Passport.

Local Open Scope Z_scope.

(** ** Machine data *)

(** [address] is a 160-bit value and [uint256] a 256-bit value; both are
    carried by [Z].  [address(0)] is [0]. *)
Definition address := Z.
Definition uint256 := Z.

Definition MAX_UINT256 : Z := 2 ^ 256 - 1.

(** Arithmetic inside an [unchecked { }] block wraps around modulo 2^256. *)
Definition wrap (x : Z) : uint256 := x mod 2 ^ 256.

(** [x--] and [x++] inside [unchecked]. *)
Definition unchecked_dec (x : uint256) : uint256 := wrap (x - 1).
Definition unchecked_inc (x : uint256) : uint256 := wrap (x + 1).

(** A Solidity [mapping] is a total map with default value zero. *)
Definition upd {V : Type} (m : Z -> V) (k : Z) (v : V) : Z -> V :=
  fun x => if x =? k then v else m x.

Definition upd2 {V : Type} (m : Z -> Z -> V) (k1 k2 : Z) (v : V) : Z -> Z -> V :=
  fun x y => if (x =? k1) && (y =? k2) then v else m x y.

(** ** Errors and events *)

(** [InvalidFrom] is declared by Passport; [CallerIsNotAuthorized] and
    [TargetIsZeroAddress] are the custom errors Passport reverts with and
    inherits from Controlled; the upper-case ones are the [require] strings
    of the ERC721 base; [Panic_overflow] is the checked-arithmetic panic;
    [ReceiverReverted] and [RendererReverted] stand for a revert that
    comes out of an external call (the receiver's hook, the renderer) and
    carries that call's revert data, which is empty when the callee has no
    code for the function or no code at all. *)
Inductive Error : Type :=
| InvalidFrom
| CallerIsNotAuthorized
| TargetIsZeroAddress
| NOT_MINTED
| ALREADY_MINTED
| INVALID_RECIPIENT
| UNSAFE_RECIPIENT
| NOT_AUTHORIZED
| Panic_overflow
| ReceiverReverted
| RendererReverted.

(** The names the specification uses for these failures. *)
Definition Unauthorized : Error := CallerIsNotAuthorized.
Definition ZeroAddress : Error := TargetIsZeroAddress.
Definition NotMinted : Error := NOT_MINTED.
Definition UnsafeRecipient : Error := UNSAFE_RECIPIENT.

Inductive Event : Type :=
| Transfer (from to : address) (id : uint256)
| Approval (owner spender : address) (id : uint256)
| ApprovalForAll (owner operator : address) (approved : bool).

(** ** Storage *)

Record State : Type := mkState {
  (* ERC721 *)
  _ownerOf : uint256 -> address;
  _balanceOf : address -> uint256;
  getApproved : uint256 -> address;
  isApprovedForAll : address -> address -> bool;
  (* Controlled *)
  owner : address;
  controller : address;
  (* Passport *)
  _supply : uint256;
  _idTracker : uint256;
  renderer : address;
  timestamps : uint256 -> uint256
}.

Definition set_ownerOf (s : State) (f : uint256 -> address) : State :=
  mkState f (_balanceOf s) (getApproved s) (isApprovedForAll s) (owner s)
          (controller s) (_supply s) (_idTracker s) (renderer s) (timestamps s).

Definition set_balanceOf (s : State) (f : address -> uint256) : State :=
  mkState (_ownerOf s) f (getApproved s) (isApprovedForAll s) (owner s)
          (controller s) (_supply s) (_idTracker s) (renderer s) (timestamps s).

Definition set_getApproved (s : State) (f : uint256 -> address) : State :=
  mkState (_ownerOf s) (_balanceOf s) f (isApprovedForAll s) (owner s)
          (controller s) (_supply s) (_idTracker s) (renderer s) (timestamps s).

Definition set_isApprovedForAll (s : State) (f : address -> address -> bool) : State :=
  mkState (_ownerOf s) (_balanceOf s) (getApproved s) f (owner s)
          (controller s) (_supply s) (_idTracker s) (renderer s) (timestamps s).

Definition set_controller (s : State) (c : address) : State :=
  mkState (_ownerOf s) (_balanceOf s) (getApproved s) (isApprovedForAll s) (owner s)
          c (_supply s) (_idTracker s) (renderer s) (timestamps s).

Definition set_supply (s : State) (n : uint256) : State :=
  mkState (_ownerOf s) (_balanceOf s) (getApproved s) (isApprovedForAll s) (owner s)
          (controller s) n (_idTracker s) (renderer s) (timestamps s).

Definition set_idTracker (s : State) (n : uint256) : State :=
  mkState (_ownerOf s) (_balanceOf s) (getApproved s) (isApprovedForAll s) (owner s)
          (controller s) (_supply s) n (renderer s) (timestamps s).

Definition set_renderer (s : State) (r : address) : State :=
  mkState (_ownerOf s) (_balanceOf s) (getApproved s) (isApprovedForAll s) (owner s)
          (controller s) (_supply s) (_idTracker s) r (timestamps s).

(** ** The transaction environment *)

(** What the receiver check of the safe variants meets when it calls
    [onERC721Received] on the recipient: [Accepted] when the recipient has
    no code (the hook is then not called) or its hook returns the magic
    selector; [Refused] when the hook returns another value;
    [HookReverted] when the call itself fails (the recipient has code
    but no such function, the hook reverts, or what it returns is no
    well-formed value).  The answer is that of a receiver which does not
    call back into the contract. *)
Inductive HookAnswer : Type :=
| Accepted
| Refused
| HookReverted.

(** [msg.sender], [block.timestamp], and the answers of the outside world:
    [receiver_hook operator from to id] is what the receiver check meets;
    [render r id owner timestamp] is what the call of [render] on the
    contract at address [r] returns, [None] when that call reverts (as it
    does when there is no contract at [r]). *)
Record Env : Type := mkEnv {
  msg_sender : address;
  block_timestamp : uint256;
  receiver_hook : address -> address -> address -> uint256 -> HookAnswer;
  render : address -> uint256 -> address -> uint256 -> option string
}.

(** The receiver check passes. *)
Definition receiver_accepts
           (e : Env) (operator from to : address) (id : uint256) : bool :=
  match receiver_hook e operator from to id with
  | Accepted => true
  | _ => false
  end.

(** ** The transaction monad: state, event log, revert *)

Inductive Outcome (A : Type) : Type :=
| Ok (a : A) (s : State) (log : list Event)
| Revert (e : Error).

Arguments Ok {A} a s log.
Arguments Revert {A} e.

Definition Tx (A : Type) : Type := State -> Outcome A.

Definition ret {A : Type} (a : A) : Tx A := fun s => Ok a s [].

Definition bind {A B : Type} (m : Tx A) (f : A -> Tx B) : Tx B :=
  fun s =>
    match m s with
    | Ok a s1 l1 =>
        match f a s1 with
        | Ok b s2 l2 => Ok b s2 (l1 ++ l2)
        | Revert e => Revert e
        end
    | Revert e => Revert e
    end.

Definition revert {A : Type} (e : Error) : Tx A := fun _ => Revert e.

Definition gets {A : Type} (f : State -> A) : Tx A := fun s => Ok (f s) s [].

Definition modify (f : State -> State) : Tx unit := fun s => Ok tt (f s) [].

Definition emit (ev : Event) : Tx unit := fun s => Ok tt s [ev].

(** [require(cond, err)] and [if (cond) revert err]. *)
Definition require (cond : bool) (e : Error) : Tx unit :=
  if cond then ret tt else revert e.

Definition revert_if (cond : bool) (e : Error) : Tx unit :=
  if cond then revert e else ret tt.

Declare Scope tx_scope.
Delimit Scope tx_scope with tx.
Notation "x <- m ;; k" := (bind m (fun x => k))
  (at level 61, m at next level, right associativity) : tx_scope.
Notation "m ;; k" := (bind m (fun _ => k))
  (at level 61, right associativity) : tx_scope.
Local Open Scope tx_scope.

(** A reverted transaction leaves the ledger as it was. *)
Definition state_after {A : Type} (r : Outcome A) (s : State) : State :=
  match r with
  | Ok _ s' _ => s'
  | Revert _ => s
  end.

Definition events_of {A : Type} (r : Outcome A) : list Event :=
  match r with
  | Ok _ _ l => l
  | Revert _ => []
  end.

(** ** Controlled (utils/Controlled.sol) *)

(** Modelled from the spec: the [onlyController] modifier of Controlled.sol,
    which is not among the sources.  Section 4.1: a caller lacking the
    required role fails with [Unauthorized]; the contract names that error
    [CallerIsNotAuthorized]. *)
Definition onlyController {A : Type} (e : Env) (body : Tx A) : Tx A :=
  c <- gets controller ;;
  revert_if (negb (msg_sender e =? c)) CallerIsNotAuthorized ;;
  body.

(** Modelled from the spec: the [onlyOwner] modifier of Controlled.sol. *)
Definition onlyOwner {A : Type} (e : Env) (body : Tx A) : Tx A :=
  o <- gets owner ;;
  revert_if (negb (msg_sender e =? o)) CallerIsNotAuthorized ;;
  body.

(** Modelled from the spec: the owner-only setter for [controller] of
    Controlled.sol (section 4.1). *)
Definition setController (e : Env) (c : address) : Tx unit :=
  onlyOwner e (modify (fun s => set_controller s c)).

(** ** The ERC721 base (solmate) *)

(** Modelled from the spec: [ownerOf] of the ERC721 base contract, which is
    imported and not among the sources; it fails with [NotMinted] when the
    id has no owner. *)
Definition ownerOf (id : uint256) : Tx address :=
  o <- gets (fun s => _ownerOf s id) ;;
  require (negb (o =? 0)) NOT_MINTED ;;
  ret o.

(** Modelled from the spec: [_mint] of the ERC721 base contract; it sets
    [owner[id] = to], counts the token in [to]'s balance and emits the
    creation event.  It refuses the zero address and an id that has an
    owner. *)
Definition _mint (to : address) (id : uint256) : Tx unit :=
  require (negb (to =? 0)) INVALID_RECIPIENT ;;
  o <- gets (fun s => _ownerOf s id) ;;
  require (o =? 0) ALREADY_MINTED ;;
  modify (fun s => set_balanceOf s (upd (_balanceOf s) to (unchecked_inc (_balanceOf s to)))) ;;
  modify (fun s => set_ownerOf s (upd (_ownerOf s) id to)) ;;
  emit (Transfer 0 to id).

(** Modelled from the spec: the receiver check of the safe variants of the
    ERC721 base contract: the [require] on the value the hook returns
    fails with [UNSAFE_RECIPIENT]; a hook that reverts takes the whole
    call down with its own revert data. *)
Definition onERC721Received (e : Env) (from to : address) (id : uint256) : Tx unit :=
  match receiver_hook e (msg_sender e) from to id with
  | Accepted => ret tt
  | Refused => revert UNSAFE_RECIPIENT
  | HookReverted => revert ReceiverReverted
  end.

(** Modelled from the spec: [_safeMint] of the ERC721 base contract:
    [_mint], then the receiver must accept the credential. *)
Definition _safeMint (e : Env) (to : address) (id : uint256) : Tx unit :=
  _mint to id ;;
  onERC721Received e 0 to id.

(** Modelled from the spec: [_burn] of the ERC721 base contract; it fails
    with [NotMinted] if the id has no owner, and clears the owner and the
    per-token approval. *)
Definition _burn (id : uint256) : Tx unit :=
  o <- gets (fun s => _ownerOf s id) ;;
  require (negb (o =? 0)) NOT_MINTED ;;
  modify (fun s => set_balanceOf s (upd (_balanceOf s) o (unchecked_dec (_balanceOf s o)))) ;;
  modify (fun s => set_ownerOf s (upd (_ownerOf s) id 0)) ;;
  modify (fun s => set_getApproved s (upd (getApproved s) id 0)) ;;
  emit (Transfer o 0 id).

(** Modelled from the spec: [approve] and [setApprovalForAll] of the ERC721
    base contract, which create the per-token approval and the operator
    approval that [transferFrom] consults. *)
Definition approve (e : Env) (spender : address) (id : uint256) : Tx unit :=
  o <- gets (fun s => _ownerOf s id) ;;
  ok <- gets (fun s => (msg_sender e =? o) || isApprovedForAll s o (msg_sender e)) ;;
  require ok NOT_AUTHORIZED ;;
  modify (fun s => set_getApproved s (upd (getApproved s) id spender)) ;;
  emit (Approval o spender id).

Definition setApprovalForAll (e : Env) (operator : address) (approved : bool) : Tx unit :=
  modify (fun s => set_isApprovedForAll s
                     (upd2 (isApprovedForAll s) (msg_sender e) operator approved)) ;;
  emit (ApprovalForAll (msg_sender e) operator approved).

(** ** Passport: views *)

Definition totalSupply : Tx uint256 := gets _supply.

Definition getNextId : Tx uint256 := gets _idTracker.

Definition tokenURI (e : Env) (id : uint256) : Tx string :=
  o <- ownerOf id ;;
  mintedAt <- gets (fun s => timestamps s id) ;;
  r <- gets renderer ;;
  match render e r id o mintedAt with
  | Some uri => ret uri
  | None => revert RendererReverted
  end.

(** ** Passport: controlled actions *)

Definition transferFrom (e : Env) (from to : address) (id : uint256) : Tx unit :=
  onlyController e (
    o <- gets (fun s => _ownerOf s id) ;;
    revert_if (negb (from =? o)) InvalidFrom ;;
    revert_if (to =? 0) TargetIsZeroAddress ;;
    unauthorized <- gets (fun s =>
      negb (msg_sender e =? from) &&
      Bool.eqb (isApprovedForAll s from (msg_sender e)) false &&
      negb (msg_sender e =? getApproved s id) &&
      negb (msg_sender e =? controller s)) ;;
    revert_if unauthorized CallerIsNotAuthorized ;;
    modify (fun s => set_balanceOf s (upd (_balanceOf s) from (unchecked_dec (_balanceOf s from)))) ;;
    modify (fun s => set_balanceOf s (upd (_balanceOf s) to (unchecked_inc (_balanceOf s to)))) ;;
    modify (fun s => set_ownerOf s (upd (_ownerOf s) id to)) ;;
    modify (fun s => set_getApproved s (upd (getApproved s) id 0)) ;;
    emit (Transfer from to id)).

(** [super.safeTransferFrom]: the base contract calls the (overridden)
    [transferFrom] and then checks the receiver. *)
Definition safeTransferFrom (e : Env) (from to : address) (id : uint256) : Tx unit :=
  onlyController e (
    transferFrom e from to id ;;
    onERC721Received e from to id).

Definition mint (e : Env) (to : address) : Tx uint256 :=
  onlyController e (
    next <- gets _idTracker ;;
    _mint to next ;;
    tokenId <- gets _idTracker ;;
    modify (fun s => set_idTracker s (unchecked_inc (_idTracker s))) ;;
    modify (fun s => set_supply s (unchecked_inc (_supply s))) ;;
    ret tokenId).

(** [x++] outside [unchecked]: panics instead of wrapping. *)
Definition checked_inc (x : uint256) : Tx uint256 :=
  if x =? MAX_UINT256 then revert Panic_overflow else ret (x + 1).

Definition safeMint (e : Env) (to : address) : Tx uint256 :=
  onlyController e (
    next <- gets _idTracker ;;
    _safeMint e to next ;;
    tokenId <- gets _idTracker ;;
    i <- checked_inc tokenId ;;
    modify (fun s => set_idTracker s i) ;;
    n <- gets _supply ;;
    n' <- checked_inc n ;;
    modify (fun s => set_supply s n') ;;
    ret tokenId).

Definition burn (e : Env) (id : uint256) : Tx unit :=
  onlyController e (
    _burn id ;;
    modify (fun s => set_supply s (unchecked_dec (_supply s)))).

(** ** Passport: owner actions *)

Definition setRenderer (e : Env) (_renderer : address) : Tx unit :=
  onlyOwner e (modify (fun s => set_renderer s _renderer)).

(** ** Executions *)

(** The entry points that write to the ledger. *)
Inductive Call : Type :=
| call_mint (to : address)
| call_safeMint (to : address)
| call_burn (id : uint256)
| call_transferFrom (from to : address) (id : uint256)
| call_safeTransferFrom (from to : address) (id : uint256)
| call_approve (spender : address) (id : uint256)
| call_setApprovalForAll (operator : address) (approved : bool)
| call_setRenderer (r : address)
| call_setController (c : address).

Definition forget {A : Type} (m : Tx A) : Tx unit := _ <- m ;; ret tt.

Definition dispatch (e : Env) (c : Call) : Tx unit :=
  match c with
  | call_mint to => forget (mint e to)
  | call_safeMint to => forget (safeMint e to)
  | call_burn id => burn e id
  | call_transferFrom from to id => transferFrom e from to id
  | call_safeTransferFrom from to id => safeTransferFrom e from to id
  | call_approve spender id => approve e spender id
  | call_setApprovalForAll operator approved => setApprovalForAll e operator approved
  | call_setRenderer r => setRenderer e r
  | call_setController c => setController e c
  end.

(** One transaction: commit on success, no effect on revert. *)
Definition exec (s : State) (ec : Env * Call) : State :=
  state_after (dispatch (fst ec) (snd ec) s) s.

Definition run (s : State) (calls : list (Env * Call)) : State :=
  fold_left exec calls s.

(** Modelled from the spec: the constructor of Controlled.sol is not among
    the sources; section 3 has an [owner] set at deployment and a
    [controller] the owner appoints.  The ledger once both roles are
    assigned and before any other call: nothing minted, every mapping
    empty, both counters zero, no renderer. *)
Definition genesis (owner0 controller0 : address) : State :=
  mkState (fun _ => 0) (fun _ => 0) (fun _ => 0) (fun _ _ => false)
          owner0 controller0 0 0 0 (fun _ => 0).

Definition reachable (s : State) : Prop :=
  exists owner0 controller0 calls, s = run (genesis owner0 controller0) calls.

(** The ledger a successful [mint(to)] or [safeMint(to)] writes, up to the
    two counters. *)
Definition minted (s : State) (to : address) : State :=
  set_ownerOf
    (set_balanceOf s (upd (_balanceOf s) to (unchecked_inc (_balanceOf s to))))
    (upd (_ownerOf s) (_idTracker s) to).

(** A successful [mint] or [safeMint] that returns [id] and leaves [s']. *)
Definition allocates (s : State) (id : uint256) (s' : State) : Prop :=
  exists e to log, mint e to s = Ok id s' log \/ safeMint e to s = Ok id s' log.

(** ** A small ledger used to exercise the statements *)

Definition deployer : address := 1.
Definition alice : address := 2.
Definition bob : address := 3.
Definition mallory : address := 4.

(** A transaction sent by [sender] at time [now]; every receiver accepts;
    there is no contract at address 0, and a renderer anywhere else
    answers with the decimal mint timestamp it is given. *)
Definition env_of (sender : address) (now : uint256) : Env :=
  mkEnv sender now (fun _ _ _ _ => Accepted)
        (fun r _ _ mintedAt =>
           if r =? 0 then None
           else Some (NilZero.string_of_uint (N.to_uint (Z.to_N mintedAt)))).

(** The same with a receiver whose hook gives [answer]. *)
Definition env_with_receiver (sender : address) (now : uint256) (answer : HookAnswer) : Env :=
  mkEnv sender now (fun _ _ _ _ => answer) (render (env_of sender now)).

(** The deployer, who is the controller, has minted credential 0 to alice. *)
Definition minted_once : State :=
  run (genesis deployer deployer) [(env_of deployer 1000, call_mint alice)].

(** [minted_once] after the owner has set a renderer. *)
Definition rendered_once : State :=
  run minted_once [(env_of deployer 1500, call_setRenderer 77)].

(** ... and has then burned it. *)
Definition minted_and_burned : State :=
  run (genesis deployer deployer)
      [(env_of deployer 1000, call_mint alice); (env_of deployer 2000, call_burn 0)].

(** ** The ledgers the controlled actions write *)

(** The ledger a successful [transferFrom(from, to, id)] writes. *)
Definition transferred (s : State) (from to : address) (id : uint256) : State :=
  let decremented := upd (_balanceOf s) from (unchecked_dec (_balanceOf s from)) in
  set_getApproved
    (set_ownerOf
       (set_balanceOf
          (set_balanceOf s decremented)
          (upd decremented to (unchecked_inc (decremented to))))
       (upd (_ownerOf s) id to))
    (upd (getApproved s) id 0).

(** The ledger a successful [burn(id)] writes. *)
Definition burned (s : State) (id : uint256) : State :=
  set_supply
    (set_getApproved
       (set_ownerOf
          (set_balanceOf s (upd (_balanceOf s) (_ownerOf s id)
                                (unchecked_dec (_balanceOf s (_ownerOf s id)))))
          (upd (_ownerOf s) id 0))
       (upd (getApproved s) id 0))
    (unchecked_dec (_supply s)).

(** The calls that allocate an id. *)
Definition is_minting (c : Call) : bool :=
  match c with
  | call_mint _ | call_safeMint _ => true
  | _ => false
  end.

(** ** Well-formed ledgers *)

Definition in_range (x : Z) : Prop := 0 <= x <= MAX_UINT256.

(** Both counters and every balance are [uint256] values. *)
Definition well_formed (s : State) : Prop :=
  in_range (_supply s) /\ in_range (_idTracker s) /\
  forall a : address, in_range (_balanceOf s a).

(** ** The footprint of a call *)

(** The credential a call is about: the id it names, or the id held by
    [_idTracker] for the two minting calls. *)
Definition credential_of (s : State) (c : Call) : uint256 :=
  match c with
  | call_mint _ | call_safeMint _ => _idTracker s
  | call_burn id | call_transferFrom _ _ id | call_safeTransferFrom _ _ id
  | call_approve _ id => id
  | _ => 0
  end.

(** The accounts whose balance a call may change. *)
Definition accounts_of (s : State) (c : Call) : address * address :=
  match c with
  | call_mint to | call_safeMint to => (to, to)
  | call_burn id => (_ownerOf s id, _ownerOf s id)
  | call_transferFrom from to _ | call_safeTransferFrom from to _ => (from, to)
  | _ => (0, 0)
  end.

End Passport.

(* ===================================================================== *)
(** * The veNATION estimate of the lock page                              *)
(* ===================================================================== *)

Module Lock.

Local Open Scope Z_scope.
Local Open Scope string_scope.

(** ** JavaScript numbers *)

(** A JavaScript number is a value of the IEEE 754 binary64 format: a
    signed zero, a signed infinity, NaN, or a finite number
    (-1)^s * m * 2^e whose mantissa [m] has at most 53 bits.  The four
    operators round to nearest, ties to even, as the format prescribes.
    The two functions of the page are embedded on numbers: the page hands
    them numbers, but for an amount field left empty. *)
Definition prec : Z := 53.
Definition emax : Z := 1024.

Definition number : Type := spec_float.

(** The terms of [number] that are values of the format (the mantissa of
    a finite number is normalised and its exponent in range). *)
Definition is_number (x : number) : bool := valid_binary prec emax x.

Definition js_add (x y : number) : number := SFadd prec emax x y.
Definition js_sub (x y : number) : number := SFsub prec emax x y.
Definition js_mul (x y : number) : number := SFmul prec emax x y.
Definition js_div (x y : number) : number := SFdiv prec emax x y.

(** [x > y]; every comparison with NaN is false. *)
Definition js_gt (x y : number) : bool := SFltb y x.

(** [!x] on a number: the two zeros and NaN are the falsy numbers. *)
Definition js_not (x : number) : bool :=
  match x with
  | S754_zero _ | S754_nan => true
  | _ => false
  end.

Definition is_zero (x : number) : bool :=
  match x with
  | S754_zero _ => true
  | _ => false
  end.

(** Neither NaN nor an infinity. *)
Definition is_finite (x : number) : bool :=
  match x with
  | S754_zero _ | S754_finite _ _ _ => true
  | _ => false
  end.

Definition finite_nonzero (x : number) : bool :=
  match x with
  | S754_finite _ _ _ => true
  | _ => false
  end.

Definition positive_finite (x : number) : bool :=
  match x with
  | S754_finite false _ _ => true
  | _ => false
  end.

(** The number that an integer literal, or a count of milliseconds,
    denotes: the integer itself up to 2^53, the nearest number of the
    format beyond. *)
Definition of_Z (z : Z) : number := binary_normalize prec emax z 0 false.

(** A boolean used as a number, as in [!nationAmount > 0]. *)
Definition of_bool (b : bool) : number := if b then of_Z 1 else of_Z 0.

(** The power of two 2^j, with a sign. *)
Definition pow2 (s : bool) (j : Z) : number :=
  S754_finite s 4503599627370496 (j - 52).

(** The rational that a finite number is; 0 for the two zeros. *)
Definition to_Q (x : number) : Q :=
  match x with
  | S754_finite s m e =>
      let v := match e with
               | Z0 => Zpos m # 1
               | Zpos k => Zpos m * 2 ^ Zpos k # 1
               | Zneg k => Zpos m # 2 ^ k
               end in
      if s then Qopp v else v
  | _ => 0%Q
  end.

(** ** Positive integers shifted to the left *)

Definition shiftl_pos (p : positive) (n : Z) : positive :=
  match n with
  | Zpos k => Pos.iter xO p k
  | _ => p
  end.

Definition cond_neg (s : bool) (p : positive) : Z :=
  if s then Zneg p else Zpos p.

(** The number of sign [s] and magnitude [p], for [p] below 2^53: the
    mantissa is [p] shifted to 53 bits. *)
Definition normal_form (s : bool) (p : positive) : number :=
  S754_finite s (shiftl_pos p (53 - Zpos (digits2_pos p)))
              (Zpos (digits2_pos p) - 53).

(** What the functions of the page return: a number or a string. *)
Inductive value : Type :=
| VNumber (n : number)
| VString (s : string).

(** ** Number.prototype.toFixed *)

Fixpoint zeros (n : nat) : string :=
  match n with
  | O => EmptyString
  | S k => String "0" (zeros k)
  end.

Definition decimal_digits (n : Z) : string :=
  NilZero.string_of_uint (N.to_uint (Z.to_N n)).

Section Runtime.

(** The exponent notation the runtime prints for magnitudes of 10^21 and
    more, to which [toFixed] hands over. *)
Variable NumberToString : number -> string.

Definition toFixed (x : number) (fractionDigits : nat) : string :=
  match x with
  | S754_nan => "NaN"
  | S754_infinity false => "Infinity"
  | S754_infinity true => "-Infinity"
  | _ =>
      let s := if Qle_bool 0 (to_Q x) then "" else "-" in
      let q := Qabs (to_Q x) in
      if Qle_bool (inject_Z (10 ^ 21)) q then s ++ NumberToString (SFabs x)
      else
        (* the integer n for which n / 10^f - x is closest to zero,
           the larger one of two *)
        let n := Qfloor (q * inject_Z (10 ^ Z.of_nat fractionDigits) + (1 # 2)) in
        let m := decimal_digits n in
        let m :=
          match fractionDigits with
          | O => m
          | _ =>
              let k := String.length m in
              let m := if Nat.leb k fractionDigits
                       then zeros (fractionDigits + 1 - k) ++ m else m in
              let k := String.length m in
              substring 0 (k - fractionDigits) m ++ "." ++
              substring (k - fractionDigits) fractionDigits m
          end in
        s ++ m
  end.

(** ** The computation, with the divisions it performs *)

(** One evaluation of the [/] operator. *)
Record Division : Type := mkDivision { dividend : number; divisor : number }.

(** A computation returns its result and the divisions it evaluated, in
    order. *)
Definition Calc (A : Type) : Type := (A * list Division)%type.

Definition ret {A : Type} (a : A) : Calc A := (a, []).

Definition bind {A B : Type} (m : Calc A) (f : A -> Calc B) : Calc B :=
  let (a, d1) := m in
  let (b, d2) := f a in
  (b, (d1 ++ d2)%list).

Definition divide (x y : number) : Calc number :=
  (js_div x y, [mkDivision x y]).

Definition result {A : Type} (m : Calc A) : A := fst m.
Definition divisions {A : Type} (m : Calc A) : list Division := snd m.

Notation "x <- m ;; k" := (bind m (fun x => k))
  (at level 61, m at next level, right associativity).

Definition calculateVestingStart (nationAmount veNationAmount lockTime : number)
  : Calc number :=
  let fourYears := js_mul (of_Z 31556926000) (of_Z 4) in
  ratio <- divide veNationAmount nationAmount ;;
  ret (js_sub lockTime (js_mul ratio fourYears)).

(** The local constant [finalVeNationAmount] of [calculateVeNation]: the
    estimate before it is formatted. *)
Definition finalVeNationAmount (nationAmount veNationAmount time lockTime max : number)
  : Calc number :=
  vestingStart <- calculateVestingStart nationAmount veNationAmount lockTime ;;
  percentage <- divide (js_sub time vestingStart) (js_sub max vestingStart) ;;
  ret (js_mul nationAmount percentage).

Definition calculateVeNation (nationAmount veNationAmount time lockTime max : number)
  : Calc value :=
  if js_gt (of_bool (js_not nationAmount)) (of_Z 0) then ret (VNumber (of_Z 0))
  else
    finalVeNationAmount <-
      finalVeNationAmount nationAmount veNationAmount time lockTime max ;;
    ret (VString (toFixed finalVeNationAmount
                    (if js_gt finalVeNationAmount (of_Z 1) then 2%nat else 8%nat))).

(** ** The call of the page *)



End Runtime.

(** The year of [calculateVestingStart], in milliseconds, and four of them. *)
Definition year : Z := 31556926000.
Definition fourYears : Z := 31556926000 * 4.

(** The moments a [Date] can hold: 100 000 000 days either side of the
    epoch. *)
Definition in_Date_range (t : Z) : Prop := Z.abs t <= 8640000000000000.

(** A printer for the magnitudes of 10^21 and more, used to run the
    functions on the examples below (none of which is that large). *)
Definition exponent_notation : number -> string := fun _ => "1e+21".

(** A moment in April 2022, in milliseconds since the epoch. *)
Definition T2022 : Z := 1650000000000.

End Lock.

(* ===================================================================== *)
(** * Properties of the Passport contract                                 *)
(* ===================================================================== *)

Module PassportSpec.

Import Passport.
Local Open Scope Z_scope.
Local Open Scope tx_scope.

(** ** Symbolic execution of a transaction *)

Ltac tx_unfold :=
  unfold safeTransferFrom, transferFrom, mint, safeMint, burn, setRenderer,
    setController, approve, setApprovalForAll, _safeMint, onERC721Received,
    _mint, _burn,
    tokenURI, ownerOf, onlyController, onlyOwner, checked_inc, forget, bind, gets,
    modify, emit, require, revert_if, revert, ret in *.

Ltac tx_branch :=
  match goal with
  | H : context [if ?b then _ else _] |- _ => destruct b eqn:?; simpl in H
  | |- context [if ?b then _ else _] => destruct b eqn:?; simpl
  | H : context [match receiver_hook ?e ?o ?f ?t ?i with _ => _ end] |- _ =>
      destruct (receiver_hook e o f t i) eqn:?; simpl in H
  | |- context [match receiver_hook ?e ?o ?f ?t ?i with _ => _ end] =>
      destruct (receiver_hook e o f t i) eqn:?; simpl
  | H : context [match render ?e ?r ?i ?o ?t with _ => _ end] |- _ =>
      destruct (render e r i o t) eqn:?; simpl in H
  | |- context [match render ?e ?r ?i ?o ?t with _ => _ end] =>
      destruct (render e r i o t) eqn:?; simpl
  end.

Ltac tx_run := tx_unfold; simpl in *; repeat tx_branch; try discriminate.

Ltac tx_inv :=
  match goal with
  | H : Ok _ _ _ = Ok _ _ _ |- _ => inversion H; subst; clear H
  end.

(** ** Arithmetic of the counters *)

Lemma unchecked_inc_no_wrap (x : uint256) :
  0 <= x < MAX_UINT256 -> unchecked_inc x = x + 1.
Proof.
  intros H. unfold unchecked_inc, wrap, MAX_UINT256 in *.
  apply Z.mod_small. lia.
Qed.

Lemma unchecked_dec_no_wrap (x : uint256) :
  0 < x <= MAX_UINT256 -> unchecked_dec x = x - 1.
Proof.
  intros H. unfold unchecked_dec, wrap, MAX_UINT256 in *.
  apply Z.mod_small. lia.
Qed.

Lemma max_uint256_nonneg : 0 <= MAX_UINT256.
Proof. now vm_compute. Qed.

Lemma unchecked_inc_max : unchecked_inc MAX_UINT256 = 0.
Proof. reflexivity. Qed.

Lemma upd_same {V : Type} (m : Z -> V) (k : Z) (v : V) : upd m k v k = v.
Proof. unfold upd. now rewrite Z.eqb_refl. Qed.

Lemma upd_other {V : Type} (m : Z -> V) (k x : Z) (v : V) :
  x <> k -> upd m k v x = m x.
Proof. intros H. unfold upd. apply Z.eqb_neq in H. now rewrite H. Qed.

(** ** The controller gate *)

Lemma transferFrom_gate (s : State) (e : Env) (from to : address) (id : uint256) :
  msg_sender e <> controller s ->
  transferFrom e from to id s = Revert CallerIsNotAuthorized.
Proof.
  intros H. apply Z.eqb_neq in H. tx_unfold. simpl. now rewrite H.
Qed.

Lemma transferFrom_success_controller
      (s s' : State) (e : Env) (from to : address) (id : uint256) (log : list Event) :
  transferFrom e from to id s = Ok tt s' log -> msg_sender e = controller s.
Proof.
  intros H. destruct (Z.eq_dec (msg_sender e) (controller s)) as [|Hne]; [assumption|].
  rewrite (transferFrom_gate s e from to id Hne) in H. discriminate.
Qed.

(** What a successful [transferFrom] has checked and what it leaves. *)
Lemma transferFrom_success
      (s s' : State) (e : Env) (from to : address) (id : uint256) (log : list Event) :
  transferFrom e from to id s = Ok tt s' log ->
  msg_sender e = controller s /\ from = _ownerOf s id /\ to <> 0 /\
  log = [Transfer from to id] /\
  s' = set_getApproved
         (set_ownerOf
            (set_balanceOf
               (set_balanceOf s (upd (_balanceOf s) from (unchecked_dec (_balanceOf s from))))
               (upd (upd (_balanceOf s) from (unchecked_dec (_balanceOf s from))) to
                    (unchecked_inc
                       (upd (_balanceOf s) from (unchecked_dec (_balanceOf s from)) to))))
            (upd (_ownerOf s) id to))
         (upd (getApproved s) id 0).
Proof.
  intros H. pose proof (transferFrom_success_controller _ _ _ _ _ _ _ H) as Hc.
  tx_run. tx_inv.
  repeat split; try assumption.
  - apply negb_false_iff in Heqb0. now apply Z.eqb_eq in Heqb0.
  - now apply Z.eqb_neq.
Qed.

(** ** Authorization of transfers *)

(** C2: a call of [transferFrom] succeeds only if the caller is the
    controller, [from] itself, an approved operator for [from], or the
    per-token approved address of [id]; a caller that is none of these
    fails with [Unauthorized].  This holds in every state. *)
Theorem C2_transferFrom_authorization
        (s : State) (e : Env) (from to : address) (id : uint256) :
  (forall s' log,
      transferFrom e from to id s = Ok tt s' log ->
      msg_sender e = controller s \/ msg_sender e = from \/
      isApprovedForAll s from (msg_sender e) = true \/
      msg_sender e = getApproved s id)
  /\
  (msg_sender e <> controller s ->
   msg_sender e <> from ->
   isApprovedForAll s from (msg_sender e) = false ->
   msg_sender e <> getApproved s id ->
   transferFrom e from to id s = Revert Unauthorized).
Proof.
  split.
  - intros s' log H. left. exact (transferFrom_success_controller _ _ _ _ _ _ _ H).
  - intros Hc _ _ _. exact (transferFrom_gate s e from to id Hc).
Qed.

Lemma C2_witness :
  (msg_sender (env_of deployer 3000) = controller minted_once \/
   msg_sender (env_of deployer 3000) = alice \/
   isApprovedForAll minted_once alice (msg_sender (env_of deployer 3000)) = true \/
   msg_sender (env_of deployer 3000) = getApproved minted_once 0)
  /\
  transferFrom (env_of mallory 3000) alice bob 0 minted_once = Revert Unauthorized.
Proof.
  split.
  - apply (proj1 (C2_transferFrom_authorization
                    minted_once (env_of deployer 3000) alice bob 0)
                 (state_after (transferFrom (env_of deployer 3000) alice bob 0 minted_once)
                              minted_once)
                 [Transfer alice bob 0]).
    vm_compute. reflexivity.
  - apply (proj2 (C2_transferFrom_authorization
                    minted_once (env_of mallory 3000) alice bob 0));
      vm_compute; congruence.
Defined.

(** ** Effects of a transfer *)

(** C5: a successful [transferFrom(from, to, id)] decrements [from]'s
    balance by one and then increments [to]'s balance by one (both
    unchecked), makes [to] the owner of [id], clears the per-token
    approval of [id] and emits [Transfer(from, to, id)]. *)
Theorem C5_transferFrom_effects
        (s s' : State) (e : Env) (from to : address) (id : uint256) (log : list Event) :
  transferFrom e from to id s = Ok tt s' log ->
  let decremented := upd (_balanceOf s) from (unchecked_dec (_balanceOf s from)) in
  _balanceOf s' = upd decremented to (unchecked_inc (decremented to)) /\
  (from <> to ->
   _balanceOf s' from = unchecked_dec (_balanceOf s from) /\
   _balanceOf s' to = unchecked_inc (_balanceOf s to)) /\
  (from <> to -> 0 < _balanceOf s from <= MAX_UINT256 ->
   _balanceOf s' from = _balanceOf s from - 1) /\
  (from <> to -> 0 <= _balanceOf s to < MAX_UINT256 ->
   _balanceOf s' to = _balanceOf s to + 1) /\
  _ownerOf s' id = to /\
  getApproved s' id = 0 /\
  log = [Transfer from to id].
Proof.
  intros H decremented.
  destruct (transferFrom_success _ _ _ _ _ _ _ H) as (_ & _ & _ & Hlog & Hs').
  subst s' log. simpl. fold decremented.
  assert (Hne : from <> to ->
                upd decremented to (unchecked_inc (decremented to)) from
                  = unchecked_dec (_balanceOf s from) /\
                upd decremented to (unchecked_inc (decremented to)) to
                  = unchecked_inc (_balanceOf s to)).
  { intros Hft. split.
    - rewrite upd_other by assumption. unfold decremented. apply upd_same.
    - rewrite upd_same. unfold decremented. rewrite upd_other by congruence.
      reflexivity. }
  repeat split.
  - apply Hne; assumption.
  - apply Hne; assumption.
  - intros Hft Hb. rewrite (proj1 (Hne Hft)). now apply unchecked_dec_no_wrap.
  - intros Hft Hb. rewrite (proj2 (Hne Hft)). now apply unchecked_inc_no_wrap.
  - apply upd_same.
  - apply upd_same.
Qed.

Lemma C5_witness :
  let s' := state_after (transferFrom (env_of deployer 3000) alice bob 0 minted_once)
                        minted_once in
  _balanceOf minted_once alice = 1 /\ _balanceOf minted_once bob = 0 /\
  _balanceOf s' alice = 0 /\ _balanceOf s' bob = 1 /\
  _ownerOf s' 0 = bob /\ getApproved s' 0 = 0.
Proof.
  intros s'.
  assert (H : transferFrom (env_of deployer 3000) alice bob 0 minted_once
              = Ok tt s' [Transfer alice bob 0]) by (vm_compute; reflexivity).
  destruct (C5_transferFrom_effects _ _ _ _ _ _ _ H)
    as (_ & _ & Hfrom & Hto & Hown & Happ & _).
  split; [reflexivity|]. split; [reflexivity|].
  split; [apply Hfrom; vm_compute; [congruence | split; [reflexivity | congruence]]|].
  split; [apply Hto; vm_compute; [congruence | split; [congruence | reflexivity]]|].
  split; assumption.
Defined.

(** ** A stale [from] *)

(** C6: when the caller passes the controller gate and [from] is not the
    recorded owner of [id], [transferFrom] fails with [InvalidFrom] and the
    ledger is unchanged. *)
Theorem C6_transferFrom_invalid_from
        (s : State) (e : Env) (from to : address) (id : uint256) :
  msg_sender e = controller s ->
  from <> _ownerOf s id ->
  transferFrom e from to id s = Revert InvalidFrom /\
  state_after (transferFrom e from to id s) s = s.
Proof.
  intros Hc Hf.
  assert (H : transferFrom e from to id s = Revert InvalidFrom).
  { apply Z.eqb_eq in Hc. apply Z.eqb_neq in Hf.
    tx_unfold. simpl. rewrite Hc. simpl. rewrite Hf. reflexivity. }
  rewrite H. split; reflexivity.
Qed.

Lemma C6_witness :
  transferFrom (env_of deployer 3000) bob alice 0 minted_once = Revert InvalidFrom /\
  state_after (transferFrom (env_of deployer 3000) bob alice 0 minted_once) minted_once
    = minted_once.
Proof.
  apply (C6_transferFrom_invalid_from minted_once (env_of deployer 3000) bob alice 0);
    vm_compute; congruence.
Defined.

(** ** The frame of a transfer *)

(** C10: every call of [transferFrom], successful or not, leaves
    [_supply], [_idTracker], [timestamps], [renderer] (and the roles and
    the operator approvals) unchanged, as well as the balance of every
    address other than [from] and [to] and the owner and the per-token
    approval of every token other than [id]. *)
Theorem C10_transferFrom_frame
        (s : State) (e : Env) (from to : address) (id : uint256) :
  let s' := state_after (transferFrom e from to id s) s in
  _supply s' = _supply s /\
  _idTracker s' = _idTracker s /\
  timestamps s' = timestamps s /\
  renderer s' = renderer s /\
  owner s' = owner s /\
  controller s' = controller s /\
  isApprovedForAll s' = isApprovedForAll s /\
  (forall a, a <> from -> a <> to -> _balanceOf s' a = _balanceOf s a) /\
  (forall i, i <> id -> _ownerOf s' i = _ownerOf s i) /\
  (forall i, i <> id -> getApproved s' i = getApproved s i).
Proof.
  destruct (transferFrom e from to id s) as [[] s1 log|err] eqn:H; simpl.
  - destruct (transferFrom_success _ _ _ _ _ _ _ H) as (_ & _ & _ & _ & Hs1).
    subst s1. simpl. repeat split; try reflexivity.
    + intros a Haf Hat. now rewrite !upd_other by assumption.
    + intros i Hi. now apply upd_other.
    + intros i Hi. now apply upd_other.
  - repeat split; reflexivity.
Qed.

Lemma C10_witness :
  let s' := state_after (transferFrom (env_of deployer 3000) alice bob 0 minted_once)
                        minted_once in
  _supply s' = 1 /\ _idTracker s' = 1 /\
  _balanceOf s' mallory = _balanceOf minted_once mallory /\
  _ownerOf s' 7 = _ownerOf minted_once 7 /\
  getApproved s' 7 = getApproved minted_once 7.
Proof.
  intros s'.
  destruct (C10_transferFrom_frame minted_once (env_of deployer 3000) alice bob 0)
    as (Hsup & Hid & _ & _ & _ & _ & _ & Hbal & Hown & Happ).
  fold s' in Hsup, Hid, Hbal, Hown, Happ.
  split; [rewrite Hsup; reflexivity|].
  split; [rewrite Hid; reflexivity|].
  split; [apply Hbal; vm_compute; congruence|].
  split; [apply Hown | apply Happ]; vm_compute; congruence.
Defined.

(** ** Burned credentials *)

Lemma burn_success (s s' : State) (e : Env) (id : uint256) (log : list Event) :
  burn e id s = Ok tt s' log ->
  msg_sender e = controller s /\ _ownerOf s id <> 0 /\
  log = [Transfer (_ownerOf s id) 0 id] /\
  s' = set_supply
         (set_getApproved
            (set_ownerOf
               (set_balanceOf s (upd (_balanceOf s) (_ownerOf s id)
                                     (unchecked_dec (_balanceOf s (_ownerOf s id)))))
               (upd (_ownerOf s) id 0))
            (upd (getApproved s) id 0))
         (unchecked_dec (_supply s)).
Proof.
  intros H. tx_run. tx_inv.
  repeat split.
  - apply negb_false_iff in Heqb. now apply Z.eqb_eq in Heqb.
  - apply negb_true_iff in Heqb0. now apply Z.eqb_neq in Heqb0.
Qed.

Lemma burn_ok (s : State) (e : Env) (id : uint256) :
  msg_sender e = controller s -> _ownerOf s id <> 0 ->
  burn e id s =
  Ok tt
     (set_supply
        (set_getApproved
           (set_ownerOf
              (set_balanceOf s (upd (_balanceOf s) (_ownerOf s id)
                                    (unchecked_dec (_balanceOf s (_ownerOf s id)))))
              (upd (_ownerOf s) id 0))
           (upd (getApproved s) id 0))
        (unchecked_dec (_supply s)))
     [Transfer (_ownerOf s id) 0 id].
Proof.
  intros Hc Ho. apply Z.eqb_eq in Hc. apply Z.eqb_neq in Ho.
  tx_unfold. simpl. rewrite Hc. simpl. rewrite Ho. reflexivity.
Qed.

(** On an id without owner: what each of the three entry points answers. *)
Lemma unowned_ownerOf (t : State) (id : uint256) :
  _ownerOf t id = 0 -> ownerOf id t = Revert NOT_MINTED.
Proof. intros H. tx_unfold. simpl. rewrite H. reflexivity. Qed.

Lemma unowned_burn (t : State) (e : Env) (id : uint256) :
  _ownerOf t id = 0 ->
  burn e id t =
  Revert (if msg_sender e =? controller t then NOT_MINTED else CallerIsNotAuthorized).
Proof.
  intros H. tx_unfold. simpl.
  destruct (msg_sender e =? controller t); simpl; [rewrite H|]; reflexivity.
Qed.

Lemma unowned_transferFrom (t : State) (e : Env) (from to : address) (id : uint256) :
  _ownerOf t id = 0 -> from <> 0 ->
  transferFrom e from to id t =
  Revert (if msg_sender e =? controller t then InvalidFrom else CallerIsNotAuthorized).
Proof.
  intros H Hf. apply Z.eqb_neq in Hf. tx_unfold. simpl.
  destruct (msg_sender e =? controller t); simpl; [rewrite H, Hf|]; reflexivity.
Qed.

(** C4 (as amended): a successful [burn(id)] leaves [id] without owner,
    and on a ledger where [id] has no owner [ownerOf(id)] fails with
    [NotMinted]; [burn(id)] fails with [NotMinted] when the controller
    calls and with [Unauthorized] for every other caller; and
    [transferFrom(from, to, id)] fails with [Unauthorized] for every caller
    other than the controller and, when the controller calls with a
    non-zero [from], with [InvalidFrom]. *)
Theorem C4_after_burn
        (s s' : State) (e : Env) (id : uint256) (log : list Event) :
  burn e id s = Ok tt s' log ->
  _ownerOf s' id = 0 /\
  forall t : State,
    _ownerOf t id = 0 ->
    ownerOf id t = Revert NotMinted /\
    (forall e', msg_sender e' = controller t -> burn e' id t = Revert NotMinted) /\
    (forall e', msg_sender e' <> controller t -> burn e' id t = Revert Unauthorized) /\
    (forall e' from to, msg_sender e' <> controller t ->
                        transferFrom e' from to id t = Revert Unauthorized) /\
    (forall e' from to, msg_sender e' = controller t -> from <> 0 ->
                        transferFrom e' from to id t = Revert InvalidFrom).
Proof.
  intros H. destruct (burn_success _ _ _ _ _ H) as (_ & _ & _ & Hs'). split.
  - subst s'. simpl. apply upd_same.
  - intros t Ht. split; [now apply unowned_ownerOf|].
    split; [|split; [|split]].
    + intros e' Hc. rewrite (unowned_burn t e' id Ht).
      apply Z.eqb_eq in Hc. now rewrite Hc.
    + intros e' Hc. rewrite (unowned_burn t e' id Ht).
      apply Z.eqb_neq in Hc. now rewrite Hc.
    + intros e' from to Hc. now apply transferFrom_gate.
    + intros e' from to Hc Hf. rewrite (unowned_transferFrom t e' from to id Ht Hf).
      apply Z.eqb_eq in Hc. now rewrite Hc.
Qed.

Lemma C4_witness :
  ownerOf 0 minted_and_burned = Revert NotMinted /\
  burn (env_of deployer 3000) 0 minted_and_burned = Revert NotMinted /\
  burn (env_of mallory 3000) 0 minted_and_burned = Revert Unauthorized /\
  transferFrom (env_of mallory 3000) alice bob 0 minted_and_burned = Revert Unauthorized /\
  transferFrom (env_of deployer 3000) alice bob 0 minted_and_burned = Revert InvalidFrom.
Proof.
  assert (H : burn (env_of deployer 2000) 0 minted_once
              = Ok tt minted_and_burned [Transfer alice 0 0])
    by (vm_compute; reflexivity).
  destruct (C4_after_burn _ _ _ _ _ H) as (Hun & Hafter).
  destruct (Hafter minted_and_burned Hun) as (Hown & Hb1 & Hb2 & Ht1 & Ht2).
  split; [exact Hown|].
  split; [apply Hb1; reflexivity|].
  split; [apply Hb2; vm_compute; congruence|].
  split; [apply Ht1; vm_compute; congruence|].
  apply Ht2; [reflexivity | vm_compute; congruence].
Defined.

(** The claim as written fails: after [burn(0)] the controller's
    [transferFrom(alice, bob, 0)] fails with [InvalidFrom], and a
    stranger's [burn(0)] with [Unauthorized], neither with [NotMinted]. *)
Lemma C4_counterexample :
  burn (env_of deployer 2000) 0 minted_once
    = Ok tt minted_and_burned [Transfer alice 0 0] /\
  transferFrom (env_of deployer 3000) alice bob 0 minted_and_burned
    = Revert InvalidFrom /\
  burn (env_of mallory 3000) 0 minted_and_burned = Revert Unauthorized /\
  InvalidFrom <> NotMinted /\ Unauthorized <> NotMinted.
Proof.
  repeat split; try (vm_compute; reflexivity); discriminate.
Qed.

(** The zero address as [from]: on an id without owner the controller's
    [transferFrom(0, to, id)] passes every check and gives the id to [to];
    the two counters are not touched. *)
Lemma transferFrom_from_zero_on_unowned :
  exists s' log,
    transferFrom (env_of deployer 3000) 0 bob 0 minted_and_burned = Ok tt s' log /\
    _ownerOf s' 0 = bob /\ _supply s' = 0 /\ _idTracker s' = 1.
Proof.
  eexists. eexists. split; [vm_compute; reflexivity|].
  repeat split.
Qed.

(** ** Minting *)

Lemma mint_success
      (s s' : State) (e : Env) (to : address) (id : uint256) (log : list Event) :
  mint e to s = Ok id s' log ->
  msg_sender e = controller s /\ to <> 0 /\ _ownerOf s (_idTracker s) = 0 /\
  id = _idTracker s /\
  log = [Transfer 0 to (_idTracker s)] /\
  s' = set_supply (set_idTracker (minted s to) (unchecked_inc (_idTracker s)))
                  (unchecked_inc (_supply s)).
Proof.
  intros H. tx_run. tx_inv.
  repeat split.
  - apply negb_false_iff in Heqb. now apply Z.eqb_eq in Heqb.
  - apply negb_true_iff in Heqb0. now apply Z.eqb_neq in Heqb0.
  - now apply Z.eqb_eq.
Qed.

Lemma mint_ok (s : State) (e : Env) (to : address) :
  msg_sender e = controller s -> to <> 0 -> _ownerOf s (_idTracker s) = 0 ->
  mint e to s =
  Ok (_idTracker s)
     (set_supply (set_idTracker (minted s to) (unchecked_inc (_idTracker s)))
                 (unchecked_inc (_supply s)))
     [Transfer 0 to (_idTracker s)].
Proof.
  intros Hc Ht Ho. apply Z.eqb_eq in Hc. apply Z.eqb_neq in Ht.
  tx_unfold. simpl. rewrite Hc. simpl. rewrite Ht. simpl. rewrite Ho. reflexivity.
Qed.

Lemma safeMint_success
      (s s' : State) (e : Env) (to : address) (id : uint256) (log : list Event) :
  safeMint e to s = Ok id s' log ->
  msg_sender e = controller s /\ to <> 0 /\ _ownerOf s (_idTracker s) = 0 /\
  _idTracker s <> MAX_UINT256 /\
  id = _idTracker s /\
  log = [Transfer 0 to (_idTracker s)] /\
  s' = set_supply (set_idTracker (minted s to) (_idTracker s + 1)) (_supply s + 1).
Proof.
  intros H. tx_run. tx_inv.
  repeat split.
  - apply negb_false_iff in Heqb. now apply Z.eqb_eq in Heqb.
  - apply negb_true_iff in Heqb0. now apply Z.eqb_neq in Heqb0.
  - now apply Z.eqb_eq.
  - now apply Z.eqb_neq.
Qed.

(** [mint] and [safeMint] do not write the [timestamps] mapping: after a
    successful call it is what it was before, whatever the current time. *)
Lemma mint_leaves_timestamps
      (s s' : State) (e : Env) (to : address) (id : uint256) (log : list Event) :
  mint e to s = Ok id s' log \/ safeMint e to s = Ok id s' log ->
  timestamps s' = timestamps s.
Proof.
  intros [H|H].
  - destruct (mint_success _ _ _ _ _ _ H) as (_ & _ & _ & _ & _ & Hs').
    subst s'. reflexivity.
  - destruct (safeMint_success _ _ _ _ _ _ H) as (_ & _ & _ & _ & _ & _ & Hs').
    subst s'. reflexivity.
Qed.

(** No transaction writes it either. *)
Lemma exec_leaves_timestamps (s : State) (ec : Env * Call) :
  timestamps (exec s ec) = timestamps s.
Proof.
  destruct ec as [e c]. unfold exec; simpl fst; simpl snd.
  destruct c; simpl dispatch; tx_run; reflexivity.
Qed.

(** [tokenURI] hands [timestamps[id]] to the renderer as the mint
    timestamp: for the credential minted at time 1000 the renderer is
    given 0. *)
Lemma tokenURI_after_mint :
  tokenURI (env_of mallory 5000) 0 rendered_once = Ok "0"%string rendered_once [].
Proof. vm_compute. reflexivity. Qed.

(** C1: the claim is that a successful [mint(to)] sets [timestamps[id]] to
    the current time.  At the first mint after deployment, sent by the
    controller at time 1000, the call succeeds and allocates id 0, and
    [timestamps[0]] is 0 afterwards, not 1000. *)
Theorem C1_first_mint_leaves_timestamp_unset :
  let e := env_of deployer 1000 in
  let r := mint e alice (genesis deployer deployer) in
  (exists s' log, r = Ok 0 s' log) /\
  block_timestamp e = 1000 /\
  timestamps (state_after r (genesis deployer deployer)) 0 = 0.
Proof.
  intros e r.
  assert (H : r = Ok 0 (state_after r (genesis deployer deployer)) [Transfer 0 alice 0])
    by (vm_compute; reflexivity).
  split; [eauto|]. split; [reflexivity|].
  rewrite (mint_leaves_timestamps _ _ _ _ _ _ (or_introl H)). reflexivity.
Qed.

(** ** The id counter *)

(** What one transaction does to [_idTracker]. *)
Lemma exec_idTracker (s : State) (e : Env) (c : Call) :
  _idTracker (exec s (e, c)) = _idTracker s \/
  (exists to, c = call_mint to /\
              _idTracker (exec s (e, c)) = unchecked_inc (_idTracker s)) \/
  (exists to, c = call_safeMint to /\ _idTracker s <> MAX_UINT256 /\
              _idTracker (exec s (e, c)) = _idTracker s + 1).
Proof.
  unfold exec; simpl fst; simpl snd.
  destruct c; simpl dispatch.
  - destruct (mint e to s) as [id s1 log|err] eqn:H.
    + right; left. exists to. split; [reflexivity|].
      destruct (mint_success _ _ _ _ _ _ H) as (_ & _ & _ & _ & _ & Hs1).
      unfold forget, bind, ret. rewrite H. subst s1. reflexivity.
    + left. unfold forget, bind. rewrite H. reflexivity.
  - destruct (safeMint e to s) as [id s1 log|err] eqn:H.
    + right; right. exists to. split; [reflexivity|].
      destruct (safeMint_success _ _ _ _ _ _ H) as (_ & _ & _ & Hmax & _ & _ & Hs1).
      split; [assumption|].
      unfold forget, bind, ret. rewrite H. subst s1. reflexivity.
    + left. unfold forget, bind. rewrite H. reflexivity.
  - left. tx_run; reflexivity.
  - left. tx_run; reflexivity.
  - left. tx_run; reflexivity.
  - left. tx_run; reflexivity.
  - left. tx_run; reflexivity.
  - left. tx_run; reflexivity.
  - left. tx_run; reflexivity.
Qed.

Lemma exec_idTracker_bounds (s : State) (ec : Env * Call) :
  0 <= _idTracker s < MAX_UINT256 ->
  _idTracker s <= _idTracker (exec s ec) <= _idTracker s + 1.
Proof.
  intros Hr. destruct ec as [e c].
  destruct (exec_idTracker s e c) as [H|[(to & _ & H)|(to & _ & _ & H)]];
    rewrite H; try rewrite (unchecked_inc_no_wrap _ Hr); lia.
Qed.

Lemma run_idTracker_bounds (calls : list (Env * Call)) :
  forall s : State,
    0 <= _idTracker s ->
    _idTracker s + Z.of_nat (List.length calls) <= MAX_UINT256 ->
    _idTracker s <= _idTracker (run s calls)
                 <= _idTracker s + Z.of_nat (List.length calls).
Proof.
  induction calls as [|ec calls IH]; intros s H0 Hlen.
  - simpl. lia.
  - change (run s (ec :: calls)) with (run (exec s ec) calls).
    simpl List.length in *. rewrite Nat2Z.inj_succ in *.
    assert (Hs : _idTracker s <= _idTracker (exec s ec) <= _idTracker s + 1)
      by (apply exec_idTracker_bounds; lia).
    specialize (IH (exec s ec)).
    assert (IH' : _idTracker (exec s ec) <= _idTracker (run (exec s ec) calls)
                  <= _idTracker (exec s ec) + Z.of_nat (List.length calls))
      by (apply IH; lia).
    lia.
Qed.

Lemma allocates_id (s s' : State) (id : uint256) :
  allocates s id s' -> id = _idTracker s /\ _idTracker s' = unchecked_inc (_idTracker s)
                       \/ id = _idTracker s /\ _idTracker s' = _idTracker s + 1.
Proof.
  intros (e & to & log & [H|H]).
  - destruct (mint_success _ _ _ _ _ _ H) as (_ & _ & _ & Hid & _ & Hs').
    left. subst s'. split; [assumption | reflexivity].
  - destruct (safeMint_success _ _ _ _ _ _ H) as (_ & _ & _ & _ & Hid & _ & Hs').
    right. subst s'. split; [assumption | reflexivity].
Qed.

(** On every reachable ledger the counter is a [uint256]. *)
Lemma reachable_idTracker_range (s : State) :
  reachable s -> 0 <= _idTracker s <= MAX_UINT256.
Proof.
  intros (o & c & calls & Hs). subst s.
  induction calls as [|ec calls IH] using rev_ind.
  - simpl. pose proof max_uint256_nonneg. lia.
  - unfold run in *. rewrite fold_left_app. simpl fold_left.
    set (s := fold_left exec calls (genesis o c)) in *.
    destruct ec as [e call].
    destruct (exec_idTracker s e call) as [H|[(to & _ & H)|(to & _ & Hmax & H)]];
      rewrite H.
    + exact IH.
    + unfold unchecked_inc, wrap, MAX_UINT256.
      pose proof (Z.mod_pos_bound (_idTracker s + 1) (2 ^ 256)). lia.
    + lia.
Qed.

(** C3: in every execution of fewer than 2^256 - 1 transactions since
    deployment, each successful [mint] or [safeMint] returns the current
    value of [_idTracker] and increments it by exactly one; no other
    operation changes it ([burn] does not decrement it); it never
    decreases, under one operation or under any further run; and an id
    that was allocated is never allocated a second time. *)
Theorem C3_nextId_allocation
        (owner0 controller0 : address) (calls : list (Env * Call)) :
  Z.of_nat (List.length calls) < MAX_UINT256 ->
  let s := run (genesis owner0 controller0) calls in
  (forall id s', allocates s id s' ->
                 id = _idTracker s /\ _idTracker s' = _idTracker s + 1) /\
  (forall e c, is_minting c = false -> _idTracker (exec s (e, c)) = _idTracker s) /\
  (forall e id, _idTracker (exec s (e, call_burn id)) = _idTracker s) /\
  (forall ec, _idTracker s <= _idTracker (exec s ec)) /\
  (forall more,
      Z.of_nat (List.length calls) + Z.of_nat (List.length more) < MAX_UINT256 ->
      _idTracker s <= _idTracker (run s more)) /\
  (forall id s1 more id2 s2,
      allocates s id s1 ->
      Z.of_nat (List.length calls) + 1 + Z.of_nat (List.length more) < MAX_UINT256 ->
      allocates (run s1 more) id2 s2 ->
      id < id2).
Proof.
  intros Hlen s.
  assert (Hr : 0 <= _idTracker s <= Z.of_nat (List.length calls)).
  { apply (run_idTracker_bounds calls (genesis owner0 controller0)); simpl; lia. }
  assert (Hid : forall t id t', allocates t id t' -> id = _idTracker t).
  { intros t id t' Ha. destruct (allocates_id _ _ _ Ha) as [[H _]|[H _]]; exact H. }
  assert (Hinc : forall t id t', allocates t id t' -> 0 <= _idTracker t < MAX_UINT256 ->
                                 _idTracker t' = _idTracker t + 1).
  { intros t id t' Ha Ht. destruct (allocates_id _ _ _ Ha) as [[_ H]|[_ H]].
    - rewrite H. now apply unchecked_inc_no_wrap.
    - exact H. }
  assert (Hsame : forall e c, is_minting c = false ->
                              _idTracker (exec s (e, c)) = _idTracker s).
  { intros e c Hc.
    destruct (exec_idTracker s e c) as [H|[(to & -> & _)|(to & -> & _)]];
      [exact H | discriminate Hc | discriminate Hc]. }
  split; [|split; [|split; [|split; [|split]]]].
  - intros id s' Ha. split; [exact (Hid _ _ _ Ha) | apply (Hinc _ _ _ Ha); lia].
  - exact Hsame.
  - intros e id. now apply Hsame.
  - intros ec. apply (exec_idTracker_bounds s ec). lia.
  - intros more Hmore. apply (run_idTracker_bounds more s); lia.
  - intros id s1 more id2 s2 Ha Hmore Ha2.
    rewrite (Hid _ _ _ Ha), (Hid _ _ _ Ha2).
    assert (H1 : _idTracker s1 = _idTracker s + 1) by (apply (Hinc _ _ _ Ha); lia).
    assert (Hb : _idTracker s1 <= _idTracker (run s1 more)
                 <= _idTracker s1 + Z.of_nat (List.length more))
      by (apply run_idTracker_bounds; lia).
    lia.
Qed.

Lemma C3_witness :
  (forall id s', allocates minted_once id s' -> id = 1 /\ _idTracker s' = 2) /\
  _idTracker (exec minted_once (env_of deployer 2000, call_burn 0)) = 1 /\
  (forall id2 s2, allocates minted_and_burned id2 s2 -> 0 < id2).
Proof.
  assert (H1 : Z.of_nat (List.length [(env_of deployer 1000, call_mint alice)])
               < MAX_UINT256) by reflexivity.
  assert (H0 : Z.of_nat (List.length (@nil (Env * Call))) < MAX_UINT256) by reflexivity.
  destruct (C3_nextId_allocation deployer deployer _ H1) as (Halloc & _ & Hburn & _).
  destruct (C3_nextId_allocation deployer deployer _ H0) as (_ & _ & _ & _ & _ & Hfresh).
  split; [|split].
  - intros id s' Ha. exact (Halloc id s' Ha).
  - exact (Hburn (env_of deployer 2000) 0).
  - intros id2 s2 Ha2.
    apply (Hfresh 0 minted_once [(env_of deployer 2000, call_burn 0)] id2 s2);
      [| reflexivity | exact Ha2].
    exists (env_of deployer 1000), alice, [Transfer 0 alice 0]. left.
    vm_compute. reflexivity.
Defined.

End PassportSpec.

(* ===================================================================== *)
(** * Properties of the veNATION estimate                                 *)
(* ===================================================================== *)

Module LockSpec.

Import Lock.
Local Open Scope string_scope.
Local Open Scope Z_scope.

(** ** Shifts of positive integers *)

Lemma Zpos_iter_xO (p k : positive) : Zpos (Pos.iter xO p k) = Zpos p * 2 ^ Zpos k.
Proof.
  induction k as [|k IH] using Pos.peano_ind.
  - simpl. lia.
  - rewrite Pos.iter_succ, Pos2Z.inj_succ, Z.pow_succ_r by lia.
    change (Zpos (Pos.iter xO p k)~0) with (2 * Zpos (Pos.iter xO p k)).
    rewrite IH. ring.
Qed.

Lemma digits2_iter_xO (p k : positive) :
  Zpos (digits2_pos (Pos.iter xO p k)) = Zpos (digits2_pos p) + Zpos k.
Proof.
  induction k as [|k IH] using Pos.peano_ind.
  - simpl. lia.
  - rewrite Pos.iter_succ. simpl digits2_pos. rewrite Pos2Z.inj_succ, IH. lia.
Qed.

Lemma Zpos_shiftl_pos (p : positive) (n : Z) :
  0 <= n -> Zpos (shiftl_pos p n) = Zpos p * 2 ^ n.
Proof.
  destruct n as [|k|k]; intros Hn; try lia.
  - simpl. lia.
  - unfold shiftl_pos. apply Zpos_iter_xO.
Qed.

Lemma digits2_shiftl_pos (p : positive) (n : Z) :
  0 <= n -> Zpos (digits2_pos (shiftl_pos p n)) = Zpos (digits2_pos p) + n.
Proof.
  destruct n as [|k|k]; intros Hn; try lia.
  - simpl. lia.
  - unfold shiftl_pos. apply digits2_iter_xO.
Qed.

Lemma shiftl_pos_add (p : positive) (a b : Z) :
  0 <= a -> 0 <= b -> shiftl_pos (shiftl_pos p a) b = shiftl_pos p (a + b).
Proof.
  intros Ha Hb. apply Pos2Z.inj.
  rewrite !Zpos_shiftl_pos by lia. rewrite Z.pow_add_r by lia. ring.
Qed.

(** A positive integer of [d] binary digits lies between 2^(d-1) and 2^d. *)
Lemma digits2_bounds (p : positive) :
  2 ^ (Zpos (digits2_pos p) - 1) <= Zpos p < 2 ^ Zpos (digits2_pos p).
Proof.
  induction p as [p IH|p IH|]; simpl digits2_pos.
  - rewrite Pos2Z.inj_succ. change (Zpos p~1) with (2 * Zpos p + 1).
    replace (Z.succ (Zpos (digits2_pos p)) - 1) with (Z.succ (Zpos (digits2_pos p) - 1)) by lia.
    rewrite !Z.pow_succ_r by lia. lia.
  - rewrite Pos2Z.inj_succ. change (Zpos p~0) with (2 * Zpos p).
    replace (Z.succ (Zpos (digits2_pos p)) - 1) with (Z.succ (Zpos (digits2_pos p) - 1)) by lia.
    rewrite !Z.pow_succ_r by lia. lia.
  - simpl. lia.
Qed.

Lemma digits2_le_prec (p : positive) : Zpos p < 2 ^ 53 -> Zpos (digits2_pos p) <= 53.
Proof.
  intros H. destruct (digits2_bounds p) as [Hl _].
  destruct (Z_le_gt_dec (Zpos (digits2_pos p)) 53) as [|Hgt]; [assumption|].
  assert (2 ^ 53 <= 2 ^ (Zpos (digits2_pos p) - 1)) by (apply Z.pow_le_mono_r; lia).
  lia.
Qed.

(** ** Rounding a mantissa whose low bits are zero *)

(** Shifting right what was shifted left loses nothing. *)
Lemma iter_shr_1_exact (n : positive) :
  forall q : positive,
    iter_pos shr_1 n (Build_shr_record (Zpos (Pos.iter xO q n)) false false)
    = Build_shr_record (Zpos q) false false.
Proof.
  induction n as [n IH|n IH|]; intros q; simpl.
  - rewrite IH. rewrite IH. reflexivity.
  - rewrite IH. rewrite IH. reflexivity.
  - reflexivity.
Qed.

Lemma shr_exact (q : positive) (e n : Z) :
  0 <= n ->
  shr (Build_shr_record (Zpos (shiftl_pos q n)) false false) e n
  = (Build_shr_record (Zpos q) false false, e + n).
Proof.
  destruct n as [|k|k]; intros Hn; try lia.
  - simpl. f_equal. lia.
  - unfold shr, shiftl_pos. rewrite iter_shr_1_exact. reflexivity.
Qed.

Lemma fexp_eq (x : Z) : fexp prec emax x = Z.max (x - 53) (-1074).
Proof. reflexivity. Qed.

Lemma bounded_spec (m : positive) (e : Z) :
  bounded prec emax m e = true <->
  Z.max (Zpos (digits2_pos m) + e - 53) (-1074) = e /\ e <= 971.
Proof.
  unfold bounded, canonical_mantissa. rewrite fexp_eq, andb_true_iff, Z.eqb_eq, Z.leb_le.
  unfold emax, prec. lia.
Qed.

Lemma shr_fexp_shift (q : positive) (e n : Z) :
  0 <= n -> Z.max (Zpos (digits2_pos q) + n + e - 53) (-1074) - e = n ->
  shr_fexp prec emax (Zpos (shiftl_pos q n)) e loc_Exact
  = (Build_shr_record (Zpos q) false false, e + n).
Proof.
  intros Hn He. unfold shr_fexp.
  change (Zdigits2 (Zpos (shiftl_pos q n))) with (Zpos (digits2_pos (shiftl_pos q n))).
  rewrite digits2_shiftl_pos by assumption. rewrite fexp_eq, He.
  apply shr_exact. assumption.
Qed.

(** A mantissa [q] shifted left by [n] bits rounds, at the exponent [e],
    to [q] at the exponent [e + n] when that is a number of the format. *)
Lemma binary_round_aux_shift (s : bool) (q : positive) (e n : Z) :
  0 <= n -> bounded prec emax q (e + n) = true ->
  binary_round_aux prec emax s (Zpos (shiftl_pos q n)) e loc_Exact = S754_finite s q (e + n).
Proof.
  intros Hn Hb. apply bounded_spec in Hb. destruct Hb as [Hc He].
  unfold binary_round_aux.
  rewrite shr_fexp_shift by lia.
  cbn beta iota zeta delta [shr_m loc_of_shr_record round_nearest_even].
  change (Zpos q) with (Zpos (shiftl_pos q 0)) at 1.
  rewrite shr_fexp_shift by lia.
  cbn beta iota zeta delta [shr_m].
  replace (e + n + 0 <=? emax - prec) with true
    by (symmetry; apply Z.leb_le; unfold emax, prec; lia).
  f_equal. lia.
Qed.

Lemma binary_round_shifted (s : bool) (p : positive) (K : Z) :
  Zpos p < 2 ^ 53 -> 0 <= K ->
  binary_round prec emax s (shiftl_pos p K) (- K) = normal_form s p.
Proof.
  intros Hp HK. pose proof (digits2_le_prec p Hp) as Hd.
  assert (Hd1 : 1 <= Zpos (digits2_pos p)) by lia.
  unfold binary_round, normal_form.
  rewrite digits2_shiftl_pos by assumption.
  rewrite fexp_eq.
  replace (Z.max (Zpos (digits2_pos p) + K + - K - 53) (-1074))
    with (Zpos (digits2_pos p) - 53) by lia.
  set (M := shiftl_pos p (53 - Zpos (digits2_pos p))).
  assert (HM : Zpos (digits2_pos M) = 53)
    by (unfold M; rewrite digits2_shiftl_pos by lia; lia).
  unfold shl_align.
  destruct (Zpos (digits2_pos p) - 53 - - K) as [|n|n] eqn:En.
  - replace (shiftl_pos p K) with (shiftl_pos M 0)
      by (unfold M; rewrite shiftl_pos_add by lia; f_equal; lia).
    rewrite binary_round_aux_shift by (lia || (apply bounded_spec; lia)). f_equal. lia.
  - replace (shiftl_pos p K) with (shiftl_pos M (Zpos n))
      by (unfold M; rewrite shiftl_pos_add by lia; f_equal; lia).
    rewrite binary_round_aux_shift by (lia || (apply bounded_spec; lia)). f_equal. lia.
  - change (Pos.iter xO (shiftl_pos p K) n) with (shiftl_pos (shiftl_pos p K) (Zpos n)).
    rewrite shiftl_pos_add by lia.
    replace (shiftl_pos p (K + Zpos n)) with (shiftl_pos M 0)
      by (unfold M; rewrite shiftl_pos_add by lia; f_equal; lia).
    rewrite binary_round_aux_shift by (lia || (apply bounded_spec; lia)). f_equal. lia.
Qed.

(** ** Integers below 2^53 are numbers, and their sums and differences
       are computed exactly *)

Lemma of_Z_normal (s : bool) (p : positive) :
  Zpos p < 2 ^ 53 -> of_Z (cond_neg s p) = normal_form s p.
Proof.
  intros Hp. unfold of_Z, binary_normalize.
  destruct s; simpl cond_neg;
    change 0 with (- 0); change p with (shiftl_pos p 0) at 1;
    apply binary_round_shifted; assumption || lia.
Qed.

Lemma of_Z_cases (z : Z) :
  Z.abs z < 2 ^ 53 ->
  (z = 0 /\ of_Z z = S754_zero false) \/
  (exists s p, z = cond_neg s p /\ Zpos p < 2 ^ 53 /\ of_Z z = normal_form s p).
Proof.
  intros Hz. destruct z as [|p|p].
  - left. split; reflexivity.
  - right. exists false, p. split; [reflexivity|]. split; [lia|]. apply (of_Z_normal false). lia.
  - right. exists true, p. split; [reflexivity|]. split; [lia|]. apply (of_Z_normal true). lia.
Qed.

Lemma binary_normalize_shifted (z K : Z) :
  Z.abs z < 2 ^ 53 -> 0 <= K ->
  binary_normalize prec emax (z * 2 ^ K) (- K) false = of_Z z.
Proof.
  intros Hz HK. destruct z as [|p|p].
  - reflexivity.
  - rewrite <- Zpos_shiftl_pos by assumption. unfold binary_normalize.
    rewrite binary_round_shifted by (assumption || lia).
    symmetry. apply (of_Z_normal false). lia.
  - replace (Zneg p * 2 ^ K) with (Zneg (shiftl_pos p K))
      by (change (Zneg p) with (- Zpos p);
          rewrite Z.mul_opp_l, <- Zpos_shiftl_pos by assumption; reflexivity).
    unfold binary_normalize.
    rewrite binary_round_shifted by (assumption || lia).
    symmetry. apply (of_Z_normal true). lia.
Qed.

Lemma shl_align_shifted (p : positive) (k K : Z) :
  0 <= k <= K -> fst (shl_align (shiftl_pos p k) (- k) (- K)) = shiftl_pos p K.
Proof.
  intros H. unfold shl_align. destruct (- K - - k) as [|n|n] eqn:En; simpl fst.
  - f_equal. lia.
  - lia.
  - change (Pos.iter xO (shiftl_pos p k) n) with (shiftl_pos (shiftl_pos p k) (Zpos n)).
    rewrite shiftl_pos_add by lia. f_equal. lia.
Qed.

Lemma cond_Zopp_shifted (s : bool) (p : positive) (K : Z) :
  0 <= K -> cond_Zopp s (Zpos (shiftl_pos p K)) = cond_neg s p * 2 ^ K.
Proof.
  intros HK. rewrite Zpos_shiftl_pos by assumption.
  destruct s; unfold cond_Zopp, cond_neg;
    [change (Zneg p) with (- Zpos p); ring | reflexivity].
Qed.

Lemma normal_form_aligned (sa sb : bool) (pa pb : positive) :
  Zpos pa < 2 ^ 53 -> Zpos pb < 2 ^ 53 ->
  exists K, 0 <= K /\
    js_sub (normal_form sa pa) (normal_form sb pb)
      = binary_normalize prec emax ((cond_neg sa pa - cond_neg sb pb) * 2 ^ K) (- K) false /\
    js_add (normal_form sa pa) (normal_form sb pb)
      = binary_normalize prec emax ((cond_neg sa pa + cond_neg sb pb) * 2 ^ K) (- K) false.
Proof.
  intros Ha Hb.
  pose proof (digits2_le_prec pa Ha) as Hda. pose proof (digits2_le_prec pb Hb) as Hdb.
  set (ka := 53 - Zpos (digits2_pos pa)). set (kb := 53 - Zpos (digits2_pos pb)).
  exists (Z.max ka kb). split; [lia|].
  unfold js_sub, js_add, SFsub, SFadd, normal_form.
  fold ka kb.
  replace (Zpos (digits2_pos pa) - 53) with (- ka) by (unfold ka; lia).
  replace (Zpos (digits2_pos pb) - 53) with (- kb) by (unfold kb; lia).
  replace (Z.min (- ka) (- kb)) with (- Z.max ka kb) by lia.
  cbv zeta.
  rewrite !shl_align_shifted by lia.
  rewrite !cond_Zopp_shifted by lia.
  split; f_equal; ring.
Qed.

Lemma of_Z_sub (a b : Z) :
  Z.abs a < 2 ^ 53 -> Z.abs b < 2 ^ 53 -> Z.abs (a - b) < 2 ^ 53 ->
  js_sub (of_Z a) (of_Z b) = of_Z (a - b).
Proof.
  intros Ha Hb Hab.
  destruct (of_Z_cases a Ha) as [[-> Ea]|(sa & pa & -> & Hpa & Ea)];
  destruct (of_Z_cases b Hb) as [[-> Eb]|(sb & pb & -> & Hpb & Eb)];
  rewrite ?Ea, ?Eb.
  - reflexivity.
  - replace (0 - cond_neg sb pb) with (cond_neg (negb sb) pb) by (destruct sb; reflexivity).
    rewrite of_Z_normal by assumption. reflexivity.
  - replace (cond_neg sa pa - 0) with (cond_neg sa pa) by lia.
    rewrite of_Z_normal by assumption. reflexivity.
  - destruct (normal_form_aligned sa sb pa pb Hpa Hpb) as (K & HK & Hs & _).
    rewrite Hs. apply binary_normalize_shifted; assumption.
Qed.

Lemma of_Z_add (a b : Z) :
  Z.abs a < 2 ^ 53 -> Z.abs b < 2 ^ 53 -> Z.abs (a + b) < 2 ^ 53 ->
  js_add (of_Z a) (of_Z b) = of_Z (a + b).
Proof.
  intros Ha Hb Hab.
  destruct (of_Z_cases a Ha) as [[-> Ea]|(sa & pa & -> & Hpa & Ea)];
  destruct (of_Z_cases b Hb) as [[-> Eb]|(sb & pb & -> & Hpb & Eb)];
  rewrite ?Ea, ?Eb.
  - reflexivity.
  - rewrite Z.add_0_l, of_Z_normal by assumption. reflexivity.
  - rewrite Z.add_0_r, of_Z_normal by assumption. reflexivity.
  - destruct (normal_form_aligned sa sb pa pb Hpa Hpb) as (K & HK & _ & Hs).
    rewrite Hs. apply binary_normalize_shifted; assumption.
Qed.

Ltac date_safe :=
  unfold in_Date_range, fourYears, year in *;
  change (2 ^ 53) with 9007199254740992; lia.

(** ** [x - x], [x - 0], [x / x] and [x * 2^j] *)

Lemma js_sub_diag (x : number) :
  is_finite x = true -> js_sub x x = S754_zero false.
Proof.
  destruct x as [s|s| |s m e]; intros H; try discriminate.
  - destruct s; reflexivity.
  - unfold js_sub, SFsub. cbv zeta. rewrite Z.sub_diag. reflexivity.
Qed.

Lemma js_sub_zero (x : number) : js_sub x (S754_zero false) = x.
Proof. destruct x as [[|]|[|]| |s m e]; reflexivity. Qed.

Lemma div_eucl_exact (a b : Z) : 0 < b -> Z.div_eucl (a * b) b = (a, 0).
Proof.
  intros Hb.
  pose proof (Z.div_eucl_eq (a * b) b ltac:(lia)) as E.
  pose proof (Z.mod_pos_bound (a * b) b Hb) as B.
  unfold Z.modulo in B.
  destruct (Z.div_eucl (a * b) b) as [q r].
  assert (q = a) by nia. subst q. f_equal. lia.
Qed.

(** A finite number divided by itself is 1, whatever its magnitude. *)
Lemma js_div_diag (s s' : bool) (m : positive) (e : Z) :
  js_div (S754_finite s m e) (S754_finite s' m e) = pow2 (xorb s s') 0.
Proof.
  unfold js_div, SFdiv, SFdiv_core_binary. cbv zeta.
  rewrite !Z.sub_diag.
  change (Z.min (fexp prec emax 0) 0) with (-53).
  change (0 - -53) with 53.
  cbv iota beta.
  rewrite Z.shiftl_mul_pow2 by lia.
  rewrite (Z.mul_comm (Zpos m)), div_eucl_exact by lia.
  assert (Hl : new_location (Zpos m) 0 = loc_Exact).
  { unfold new_location. destruct (Z.even (Zpos m)); reflexivity. }
  rewrite Hl. destruct (xorb s s'); reflexivity.
Qed.

Lemma mul_pow2_52 (m : positive) : (m * 4503599627370496)%positive = shiftl_pos m 52.
Proof.
  apply Pos2Z.inj. rewrite Pos2Z.inj_mul, Zpos_shiftl_pos by lia. reflexivity.
Qed.

(** Multiplying by a power of two moves the exponent, when the product is
    a number of the format. *)
Lemma js_mul_pow2 (s s' : bool) (m : positive) (e j : Z) :
  bounded prec emax m (e + j) = true ->
  js_mul (S754_finite s m e) (pow2 s' j) = S754_finite (xorb s s') m (e + j).
Proof.
  intros Hb. unfold js_mul, pow2, SFmul.
  rewrite mul_pow2_52.
  rewrite binary_round_aux_shift.
  - f_equal. lia.
  - lia.
  - replace (e + (j - 52) + 52) with (e + j) by lia. exact Hb.
Qed.

Lemma js_mul_one (x : number) :
  is_number x = true -> finite_nonzero x = true -> js_mul x (pow2 false 0) = x.
Proof.
  destruct x as [s|s| |s m e]; intros Hv Hf; try discriminate.
  rewrite js_mul_pow2 by (rewrite Z.add_0_r; exact Hv).
  rewrite xorb_false_r, Z.add_0_r. reflexivity.
Qed.

(** ** The constants of the page *)

Lemma fourYears_number : js_mul (of_Z 31556926000) (of_Z 4) = of_Z fourYears.
Proof. vm_compute. reflexivity. Qed.

Lemma fourYears_finite :
  of_Z fourYears = S754_finite false 8272458809344000 (-16).
Proof. vm_compute. reflexivity. Qed.

(** Four years after a whole number of milliseconds of the [Date] range is
    a moment apart from it, by exactly four years. *)
Lemma horizon_apart (v : Z) :
  in_Date_range v ->
  js_sub (js_add (of_Z v) (of_Z fourYears)) (of_Z v) = of_Z fourYears.
Proof.
  intros Hv. rewrite of_Z_add, of_Z_sub by date_safe. f_equal. lia.
Qed.

Section Estimate.

Variable NumberToString : number -> string.

(** ** The estimate as one expression *)

Lemma calculateVestingStart_result (nationAmount veNationAmount lockTime : number) :
  result (calculateVestingStart nationAmount veNationAmount lockTime)
  = js_sub lockTime (js_mul (js_div veNationAmount nationAmount) (of_Z fourYears)).
Proof. rewrite <- fourYears_number. reflexivity. Qed.

Lemma finalVeNationAmount_result (nationAmount veNationAmount time lockTime max : number) :
  result (finalVeNationAmount nationAmount veNationAmount time lockTime max)
  = js_mul nationAmount
      (js_div (js_sub time (result (calculateVestingStart nationAmount veNationAmount
                                                           lockTime)))
              (js_sub max (result (calculateVestingStart nationAmount veNationAmount
                                                          lockTime)))).
Proof. reflexivity. Qed.

(** Past the guard, [calculateVeNation] formats [finalVeNationAmount]. *)
Lemma calculateVeNation_truthy (nationAmount veNationAmount time lockTime max : number) :
  js_not nationAmount = false ->
  result (calculateVeNation NumberToString nationAmount veNationAmount time lockTime max)
  = VString
      (toFixed NumberToString
         (result (finalVeNationAmount nationAmount veNationAmount time lockTime max))
         (if js_gt (result (finalVeNationAmount nationAmount veNationAmount time
                                                lockTime max))
                   (of_Z 1)
          then 2%nat else 8%nat)).
Proof.
  intros Hn. unfold calculateVeNation. rewrite Hn.
  change (js_gt (of_bool false) (of_Z 0)) with false. cbv iota.
  unfold bind, ret, result.
  destruct (finalVeNationAmount nationAmount veNationAmount time lockTime max)
    as [f ds].
  reflexivity.
Qed.

(** With no veNATION balance, the vesting of a positive amount starts at
    [lockTime]. *)
Lemma vestingStart_of_new_lock (amount lockTime : number) :
  positive_finite amount = true ->
  result (calculateVestingStart amount (of_Z 0) lockTime) = lockTime.
Proof.
  intros Ha. rewrite calculateVestingStart_result, fourYears_finite.
  destruct amount as [s|s| |[|] m e]; try discriminate.
  apply js_sub_zero.
Qed.

Lemma positive_finite_truthy (amount : number) :
  positive_finite amount = true -> js_not amount = false.
Proof. destruct amount as [s|s| |[|] m e]; intros H; try discriminate; reflexivity. Qed.

Lemma toFixed_zero (s : bool) : toFixed NumberToString (S754_zero s) 8 = "0.00000000".
Proof. destruct s; vm_compute; reflexivity. Qed.

(** ** The scenario of a four-year lock *)


(** ** The two ends of the ramp *)

Lemma active_vestingStart_finite (vestingStart : number) :
  finite_nonzero (js_sub (js_add vestingStart (of_Z fourYears)) vestingStart) = true ->
  is_finite vestingStart = true.
Proof.
  rewrite fourYears_finite.
  destruct vestingStart as [s|[|]| |s m e]; intros H; try reflexivity; discriminate.
Qed.

(** C8: for a lock of a positive amount whose horizon, the computed
    [vestingStart] + 4 years, is a moment apart from the vesting start, the
    estimate evaluated at the [vestingStart] that [calculateVestingStart]
    computes is 0, and evaluated at the horizon it is the full amount of
    the lock (which [calculateVeNation] returns formatted by [toFixed]). *)
Theorem C8_ramp_endpoints (amount veNationAmount lockTime : number) :
  is_number amount = true ->
  positive_finite amount = true ->
  let vestingStart := result (calculateVestingStart amount veNationAmount lockTime) in
  let horizon := js_add vestingStart (of_Z fourYears) in
  finite_nonzero (js_sub horizon vestingStart) = true ->
  is_zero (result (finalVeNationAmount amount veNationAmount vestingStart
                                       lockTime horizon)) = true /\
  result (calculateVeNation NumberToString amount veNationAmount
                            vestingStart lockTime horizon)
  = VString "0.00000000" /\
  result (finalVeNationAmount amount veNationAmount horizon lockTime horizon)
  = amount /\
  result (calculateVeNation NumberToString amount veNationAmount
                            horizon lockTime horizon)
  = VString (toFixed NumberToString amount
                     (if js_gt amount (of_Z 1) then 2%nat else 8%nat)).
Proof.
  intros Hnum Hpos vestingStart horizon Hact.
  pose proof (active_vestingStart_finite vestingStart Hact) as Hfin.
  pose proof (positive_finite_truthy amount Hpos) as Htruthy.
  assert (H0 : exists s, result (finalVeNationAmount amount veNationAmount vestingStart
                                                     lockTime horizon) = S754_zero s).
  { rewrite finalVeNationAmount_result. fold vestingStart.
    rewrite (js_sub_diag vestingStart Hfin).
    destruct (js_sub horizon vestingStart) as [sd|sd| |sd md ed]; try discriminate.
    destruct amount as [s|s| |[|] m e]; try discriminate.
    eexists. reflexivity. }
  assert (H1 : result (finalVeNationAmount amount veNationAmount horizon lockTime horizon)
               = amount).
  { rewrite finalVeNationAmount_result. fold vestingStart.
    destruct (js_sub horizon vestingStart) as [sd|sd| |sd md ed]; try discriminate.
    rewrite js_div_diag, xorb_nilpotent.
    apply js_mul_one; [exact Hnum|].
    destruct amount as [s|s| |[|] m e]; try discriminate. reflexivity. }
  destruct H0 as [s H0].
  split; [rewrite H0; reflexivity|]. split; [|split; [exact H1|]].
  - rewrite calculateVeNation_truthy by exact Htruthy. rewrite H0.
    replace (js_gt (S754_zero s) (of_Z 1)) with false by (destruct s; reflexivity).
    now rewrite toFixed_zero.
  - rewrite calculateVeNation_truthy by exact Htruthy. now rewrite H1.
Qed.

(** ** The guard on the amount *)

(** C9: when the amount is 0, [calculateVeNation] returns the number 0
    without evaluating any division, whatever the other inputs are; and
    on no input does it evaluate a division whose divisor is a zero
    amount. *)
Theorem C9_zero_amount_short_circuits
        (nationAmount veNationAmount time lockTime max : number) :
  (is_zero nationAmount = true ->
   calculateVeNation NumberToString nationAmount veNationAmount time lockTime max
   = (VNumber (of_Z 0), [])) /\
  Forall (fun d => divisor d = nationAmount -> is_zero (divisor d) = false)
         (divisions (calculateVeNation NumberToString nationAmount veNationAmount
                                       time lockTime max)).
Proof.
  split.
  - intros Hz. unfold calculateVeNation.
    destruct nationAmount as [s|s| |s m e]; try discriminate.
    reflexivity.
  - unfold calculateVeNation.
    destruct (js_not nationAmount) eqn:Hn.
    + simpl. constructor.
    + change (js_gt (of_bool false) (of_Z 0)) with false. cbv iota.
      apply Forall_forall. intros d _ Hd. rewrite Hd.
      destruct nationAmount as [s|s| |s m e]; try reflexivity; discriminate.
Qed.

End Estimate.


Lemma C8_witness :
  let vestingStart :=
    result (calculateVestingStart (of_Z 1000) (of_Z 250) (of_Z (T2022 + year))) in
  let horizon := js_add vestingStart (of_Z fourYears) in
  vestingStart = of_Z T2022 /\
  result (calculateVeNation exponent_notation (of_Z 1000) (of_Z 250)
                            vestingStart (of_Z (T2022 + year)) horizon)
  = VString "0.00000000" /\
  result (calculateVeNation exponent_notation (of_Z 1000) (of_Z 250)
                            horizon (of_Z (T2022 + year)) horizon)
  = VString "1000.00".
Proof.
  intros vestingStart horizon.
  destruct (C8_ramp_endpoints exponent_notation (of_Z 1000) (of_Z 250)
                              (of_Z (T2022 + year)) eq_refl eq_refl eq_refl)
    as (_ & H0 & _ & H1).
  split; [reflexivity|]. split; [exact H0 | exact H1].
Defined.

Lemma C9_witness :
  calculateVeNation exponent_notation (S754_zero true) (of_Z 250) (of_Z T2022)
                    S754_nan (S754_infinity false)
  = (VNumber (of_Z 0), []).
Proof.
  apply (proj1 (C9_zero_amount_short_circuits exponent_notation (S754_zero true) (of_Z 250)
                                             (of_Z T2022) S754_nan (S754_infinity false))).
  reflexivity.
Defined.

End LockSpec.

(* ===================================================================== *)
(** * Further properties of the Passport contract                         *)
(* ===================================================================== *)

Module PassportMore.

Import Passport.
Import PassportSpec.
Local Open Scope Z_scope.
Local Open Scope tx_scope.

(** ** The controller gate *)

Lemma onlyController_pass {A : Type} (e : Env) (body : Tx A) (s : State) :
  msg_sender e = controller s -> onlyController e body s = body s.
Proof.
  intros Hc. apply Z.eqb_eq in Hc. unfold onlyController, bind, gets, revert_if.
  rewrite Hc. simpl. destruct (body s); reflexivity.
Qed.

Lemma onlyController_fail {A : Type} (e : Env) (body : Tx A) (s : State) :
  msg_sender e <> controller s -> onlyController e body s = Revert CallerIsNotAuthorized.
Proof.
  intros Hc. apply Z.eqb_neq in Hc. unfold onlyController, bind, gets, revert_if.
  rewrite Hc. reflexivity.
Qed.

(** ** Outcomes of [transferFrom] *)

Lemma transferFrom_ok (s : State) (e : Env) (from to : address) (id : uint256) :
  msg_sender e = controller s -> from = _ownerOf s id -> to <> 0 ->
  transferFrom e from to id s = Ok tt (transferred s from to id) [Transfer from to id].
Proof.
  intros Hc Hf Ht. apply Z.eqb_eq in Hc. apply Z.eqb_eq in Hf. apply Z.eqb_neq in Ht.
  tx_unfold. simpl. rewrite Hc. simpl. rewrite Hf. simpl. rewrite Ht. simpl.
  rewrite Hc. rewrite !andb_false_r. reflexivity.
Qed.

(** X1: the outcome of [transferFrom] is decided by three tests, in this
    order: a caller other than the controller is refused, then a [from]
    that is not the recorded owner, then the zero address as [to];
    otherwise the call succeeds.  Approvals play no part: the test on
    them cannot fail once the caller is the controller. *)
Theorem X1_transferFrom_outcome
        (s : State) (e : Env) (from to : address) (id : uint256) :
  transferFrom e from to id s =
  if negb (msg_sender e =? controller s) then Revert CallerIsNotAuthorized
  else if negb (from =? _ownerOf s id) then Revert InvalidFrom
  else if to =? 0 then Revert TargetIsZeroAddress
  else Ok tt (transferred s from to id) [Transfer from to id].
Proof.
  destruct (msg_sender e =? controller s) eqn:Hc; simpl.
  - destruct (from =? _ownerOf s id) eqn:Hf; simpl.
    + destruct (to =? 0) eqn:Ht.
      * tx_unfold. simpl. rewrite Hc. simpl. rewrite Hf. simpl. rewrite Ht.
        reflexivity.
      * apply transferFrom_ok;
          [now apply Z.eqb_eq | now apply Z.eqb_eq | now apply Z.eqb_neq].
    + tx_unfold. simpl. rewrite Hc. simpl. rewrite Hf. reflexivity.
  - apply transferFrom_gate. now apply Z.eqb_neq.
Qed.

Lemma X1_witness :
  transferFrom (env_of deployer 3000) alice 0 0 minted_once = Revert TargetIsZeroAddress /\
  transferFrom (env_of alice 3000) alice bob 0 minted_once = Revert CallerIsNotAuthorized.
Proof.
  split.
  - rewrite (X1_transferFrom_outcome minted_once (env_of deployer 3000) alice 0 0).
    reflexivity.
  - rewrite (X1_transferFrom_outcome minted_once (env_of alice 3000) alice bob 0).
    reflexivity.
Defined.

(** ** The zero address as [from] *)

(** X2: on an id without owner the controller's [transferFrom(0, to, id)]
    succeeds and makes [to] the owner without touching [_supply] or
    [_idTracker]; the controller's [burn(id)] then succeeds too and takes
    [_supply] one below what it was before the two calls (wrapping at 0). *)
Theorem X2_transfer_from_zero_then_burn
        (s : State) (e : Env) (to : address) (id : uint256) :
  msg_sender e = controller s -> _ownerOf s id = 0 -> to <> 0 ->
  let s1 := transferred s 0 to id in
  transferFrom e 0 to id s = Ok tt s1 [Transfer 0 to id] /\
  _ownerOf s1 id = to /\
  _supply s1 = _supply s /\
  _idTracker s1 = _idTracker s /\
  burn e id s1 = Ok tt (burned s1 id) [Transfer to 0 id] /\
  _ownerOf (burned s1 id) id = 0 /\
  _supply (burned s1 id) = unchecked_dec (_supply s).
Proof.
  intros Hc Ho Ht s1.
  assert (Ho1 : _ownerOf s1 id = to) by (unfold s1; simpl; apply upd_same).
  split; [apply transferFrom_ok; [assumption | now rewrite Ho | assumption]|].
  split; [exact Ho1|]. split; [reflexivity|]. split; [reflexivity|].
  split; [|split].
  - rewrite (burn_ok s1 e id); [| exact Hc | now rewrite Ho1].
    unfold burned. rewrite Ho1. reflexivity.
  - simpl. apply upd_same.
  - reflexivity.
Qed.

Lemma X2_witness :
  let s1 := transferred (genesis deployer deployer) 0 bob 5 in
  transferFrom (env_of deployer 10) 0 bob 5 (genesis deployer deployer)
    = Ok tt s1 [Transfer 0 bob 5] /\
  burn (env_of deployer 10) 5 s1 = Ok tt (burned s1 5) [Transfer bob 0 5] /\
  _supply (burned s1 5) = MAX_UINT256.
Proof.
  intros s1.
  destruct (X2_transfer_from_zero_then_burn
              (genesis deployer deployer) (env_of deployer 10) bob 5)
    as (Ht & _ & _ & _ & Hb & _ & Hs);
    [reflexivity | reflexivity | discriminate |].
  split; [exact Ht|]. split; [exact Hb|]. unfold s1. rewrite Hs. reflexivity.
Defined.

(** ** The safe transfer *)

(** X3: [safeTransferFrom] fails exactly as [transferFrom] does when that
    fails; when [transferFrom] succeeds it yields the same ledger and the
    same event if the receiver check passes, fails with
    [UNSAFE_RECIPIENT] if the hook returns a wrong value, and fails with
    the hook's own revert if the hook reverts. *)
Theorem X3_safeTransferFrom_outcome
        (s : State) (e : Env) (from to : address) (id : uint256) :
  safeTransferFrom e from to id s =
  match transferFrom e from to id s with
  | Ok _ s' log =>
      match receiver_hook e (msg_sender e) from to id with
      | Accepted => Ok tt s' log
      | Refused => Revert UNSAFE_RECIPIENT
      | HookReverted => Revert ReceiverReverted
      end
  | Revert err => Revert err
  end.
Proof.
  destruct (Z.eq_dec (msg_sender e) (controller s)) as [Hc|Hc].
  - unfold safeTransferFrom. rewrite onlyController_pass by assumption.
    unfold bind.
    destruct (transferFrom e from to id s) as [[] s' log|err]; [|reflexivity].
    unfold onERC721Received.
    destruct (receiver_hook e (msg_sender e) from to id); try reflexivity.
    unfold ret. now rewrite app_nil_r.
  - unfold safeTransferFrom. rewrite onlyController_fail by assumption.
    now rewrite transferFrom_gate.
Qed.

Lemma X3_witness :
  safeTransferFrom (env_of deployer 3000) alice bob 0 minted_once
    = Ok tt (transferred minted_once alice bob 0) [Transfer alice bob 0] /\
  safeTransferFrom (env_with_receiver deployer 3000 Refused) alice bob 0 minted_once
    = Revert UNSAFE_RECIPIENT /\
  safeTransferFrom (env_with_receiver deployer 3000 HookReverted) alice bob 0 minted_once
    = Revert ReceiverReverted.
Proof.
  split; [|split]; rewrite X3_safeTransferFrom_outcome; vm_compute; reflexivity.
Defined.

(** ** Outcomes of [mint], [safeMint] and [burn] *)

(** The base [_mint] on its own. *)
Lemma _mint_cases (s : State) (to : address) (id : uint256) :
  _mint to id s =
  if to =? 0 then Revert INVALID_RECIPIENT
  else if negb (_ownerOf s id =? 0) then Revert ALREADY_MINTED
  else Ok tt
          (set_ownerOf
             (set_balanceOf s (upd (_balanceOf s) to (unchecked_inc (_balanceOf s to))))
             (upd (_ownerOf s) id to))
          [Transfer 0 to id].
Proof.
  unfold _mint, bind, require, gets, modify, emit, revert, ret.
  destruct (to =? 0); simpl; [reflexivity|].
  destruct (_ownerOf s id =? 0); reflexivity.
Qed.

(** X4: [mint] always targets the id held by [_idTracker]: a caller other
    than the controller is refused, then the zero address as recipient,
    then an id that already has an owner; otherwise the call returns that
    id, gives it to [to] and increments both counters (unchecked). *)
Theorem X4_mint_outcome (s : State) (e : Env) (to : address) :
  mint e to s =
  if negb (msg_sender e =? controller s) then Revert CallerIsNotAuthorized
  else if to =? 0 then Revert INVALID_RECIPIENT
  else if negb (_ownerOf s (_idTracker s) =? 0) then Revert ALREADY_MINTED
  else Ok (_idTracker s)
          (set_supply (set_idTracker (minted s to) (unchecked_inc (_idTracker s)))
                      (unchecked_inc (_supply s)))
          [Transfer 0 to (_idTracker s)].
Proof.
  destruct (msg_sender e =? controller s) eqn:Hc; simpl.
  - apply Z.eqb_eq in Hc. unfold mint. rewrite onlyController_pass by assumption.
    unfold bind at 1. unfold gets at 1. unfold bind at 1.
    rewrite _mint_cases.
    destruct (to =? 0); [reflexivity|].
    destruct (_ownerOf s (_idTracker s) =? 0); reflexivity.
  - apply Z.eqb_neq in Hc. unfold mint. now apply onlyController_fail.
Qed.

(** X6: [safeMint] fails as [mint] does, then on the receiver check (with
    [UNSAFE_RECIPIENT] when the hook returns a wrong value, with the
    hook's own revert when the hook reverts), then with a panic when
    [_idTracker] or [_supply] is at 2^256 - 1; otherwise it returns the id
    and increments both counters by exactly one. *)
Theorem X6_safeMint_outcome (s : State) (e : Env) (to : address) :
  safeMint e to s =
  if negb (msg_sender e =? controller s) then Revert CallerIsNotAuthorized
  else if to =? 0 then Revert INVALID_RECIPIENT
  else if negb (_ownerOf s (_idTracker s) =? 0) then Revert ALREADY_MINTED
  else match receiver_hook e (msg_sender e) 0 to (_idTracker s) with
       | Refused => Revert UNSAFE_RECIPIENT
       | HookReverted => Revert ReceiverReverted
       | Accepted =>
           if _idTracker s =? MAX_UINT256 then Revert Panic_overflow
           else if _supply s =? MAX_UINT256 then Revert Panic_overflow
           else Ok (_idTracker s)
                   (set_supply (set_idTracker (minted s to) (_idTracker s + 1))
                               (_supply s + 1))
                   [Transfer 0 to (_idTracker s)]
       end.
Proof.
  destruct (msg_sender e =? controller s) eqn:Hc; simpl.
  - apply Z.eqb_eq in Hc. unfold safeMint. rewrite onlyController_pass by assumption.
    unfold _safeMint, onERC721Received, bind, gets, checked_inc, modify, ret, revert.
    rewrite _mint_cases.
    destruct (to =? 0); [reflexivity|].
    destruct (_ownerOf s (_idTracker s) =? 0); [|reflexivity].
    simpl.
    destruct (receiver_hook e (msg_sender e) 0 to (_idTracker s)); try reflexivity.
    simpl.
    destruct (_idTracker s =? MAX_UINT256); [reflexivity|]. simpl.
    destruct (_supply s =? MAX_UINT256); reflexivity.
  - apply Z.eqb_neq in Hc. unfold safeMint. now apply onlyController_fail.
Qed.

Lemma X4_witness :
  mint (env_of deployer 10) 0 minted_once = Revert INVALID_RECIPIENT /\
  exists s' log, mint (env_of deployer 10) bob minted_once = Ok 1 s' log.
Proof.
  split.
  - rewrite X4_mint_outcome. reflexivity.
  - eexists. eexists. rewrite X4_mint_outcome. reflexivity.
Defined.

Lemma X6_witness :
  safeMint (env_with_receiver deployer 10 Refused) bob minted_once
    = Revert UNSAFE_RECIPIENT /\
  safeMint (env_with_receiver deployer 10 HookReverted) bob minted_once
    = Revert ReceiverReverted /\
  safeMint (env_of deployer 10) bob
           (set_idTracker (genesis deployer deployer) MAX_UINT256)
    = Revert Panic_overflow.
Proof.
  split; [|split]; rewrite X6_safeMint_outcome; reflexivity.
Defined.

(** X5: while the id held by [_idTracker] has an owner, every [mint] and
    every [safeMint] fails, whoever calls and whoever is to receive; as a
    failed call does not move the counter, no sequence of [mint] and
    [safeMint] calls changes the ledger. *)
Theorem X5_minting_blocked (s : State) :
  _ownerOf s (_idTracker s) <> 0 ->
  (forall e to, exists err, mint e to s = Revert err) /\
  (forall e to, exists err, safeMint e to s = Revert err) /\
  (forall calls : list (Env * Call),
      forallb (fun ec => is_minting (snd ec)) calls = true -> run s calls = s).
Proof.
  intros Ho.
  assert (Hm : forall e to, exists err, mint e to s = Revert err).
  { intros e to. destruct (mint e to s) as [id s' log|err] eqn:H; [|eauto].
    destruct (mint_success _ _ _ _ _ _ H) as (_ & _ & Hfree & _). contradiction. }
  assert (Hs : forall e to, exists err, safeMint e to s = Revert err).
  { intros e to. destruct (safeMint e to s) as [id s' log|err] eqn:H; [|eauto].
    destruct (safeMint_success _ _ _ _ _ _ H) as (_ & _ & Hfree & _). contradiction. }
  split; [exact Hm|]. split; [exact Hs|].
  induction calls as [|[e c] calls IH]; intros Hall; [reflexivity|].
  simpl in Hall. apply andb_true_iff in Hall. destruct Hall as [Hc Hall].
  change (run s ((e, c) :: calls)) with (run (exec s (e, c)) calls).
  assert (Hx : exec s (e, c) = s).
  { unfold exec; simpl fst; simpl snd.
    destruct c; try discriminate Hc; simpl dispatch; unfold forget, bind.
    - destruct (Hm e to) as [err H]. now rewrite H.
    - destruct (Hs e to) as [err H]. now rewrite H. }
  rewrite Hx. now apply IH.
Qed.

Lemma X5_witness :
  let s := transferred (genesis deployer deployer) 0 bob 0 in
  (exists err, mint (env_of deployer 10) alice s = Revert err) /\
  run s [(env_of deployer 10, call_mint alice); (env_of deployer 11, call_safeMint bob)]
    = s.
Proof.
  intros s.
  assert (Ho : _ownerOf s (_idTracker s) <> 0) by (vm_compute; discriminate).
  destruct (X5_minting_blocked s Ho) as (Hm & _ & Hrun).
  split; [apply Hm | apply Hrun; reflexivity].
Defined.

(** X7: when the receiver accepts and both counters are below 2^256 - 1,
    [safeMint] does exactly what [mint] does: the same outcome, the same
    id, the same ledger and the same event. *)
Theorem X7_safeMint_agrees_with_mint (s : State) (e : Env) (to : address) :
  receiver_accepts e (msg_sender e) 0 to (_idTracker s) = true ->
  0 <= _idTracker s < MAX_UINT256 ->
  0 <= _supply s < MAX_UINT256 ->
  safeMint e to s = mint e to s.
Proof.
  intros Hacc Hid Hsup.
  assert (Hi : (_idTracker s =? MAX_UINT256) = false) by (apply Z.eqb_neq; lia).
  assert (Hn : (_supply s =? MAX_UINT256) = false) by (apply Z.eqb_neq; lia).
  destruct (Z.eq_dec (msg_sender e) (controller s)) as [Hc|Hc].
  - unfold safeMint, mint. rewrite !onlyController_pass by assumption.
    unfold _safeMint, onERC721Received, bind, gets, require, checked_inc, modify,
      ret, revert.
    rewrite _mint_cases.
    destruct (to =? 0); [reflexivity|].
    destruct (_ownerOf s (_idTracker s) =? 0); [|reflexivity].
    unfold receiver_accepts in Hacc.
    destruct (receiver_hook e (msg_sender e) 0 to (_idTracker s)); try discriminate.
    simpl. rewrite Hi. simpl. rewrite Hn. simpl.
    rewrite (unchecked_inc_no_wrap _ Hid), (unchecked_inc_no_wrap _ Hsup).
    reflexivity.
  - unfold safeMint, mint. now rewrite !onlyController_fail by assumption.
Qed.

Lemma X7_witness :
  safeMint (env_of deployer 10) bob minted_once = mint (env_of deployer 10) bob minted_once.
Proof.
  apply X7_safeMint_agrees_with_mint;
    [reflexivity | vm_compute; split; congruence | vm_compute; split; congruence].
Defined.

(** X8: the outcome of [burn]: a caller other than the controller is
    refused, then an id without owner; otherwise the owner loses one unit
    of balance, the owner and the per-token approval of the id are
    cleared, [_supply] is decremented (unchecked) and the transfer to the
    zero address is logged. *)
Theorem X8_burn_outcome (s : State) (e : Env) (id : uint256) :
  burn e id s =
  if negb (msg_sender e =? controller s) then Revert CallerIsNotAuthorized
  else if _ownerOf s id =? 0 then Revert NOT_MINTED
  else Ok tt (burned s id) [Transfer (_ownerOf s id) 0 id].
Proof.
  destruct (msg_sender e =? controller s) eqn:Hc; simpl.
  - apply Z.eqb_eq in Hc. destruct (_ownerOf s id =? 0) eqn:Ho.
    + apply Z.eqb_eq in Ho. rewrite (unowned_burn s e id Ho).
      apply Z.eqb_eq in Hc. now rewrite Hc.
    + apply Z.eqb_neq in Ho. now apply burn_ok.
  - apply Z.eqb_neq in Hc. unfold burn. now apply onlyController_fail.
Qed.

Lemma X8_witness :
  burn (env_of deployer 10) 7 minted_once = Revert NOT_MINTED /\
  burn (env_of deployer 10) 0 minted_once
    = Ok tt (burned minted_once 0) [Transfer alice 0 0].
Proof.
  split; rewrite X8_burn_outcome; reflexivity.
Defined.

(** ** Well-formed ledgers *)

Lemma wrap_in_range (x : Z) : in_range (wrap x).
Proof.
  unfold in_range, wrap, MAX_UINT256.
  pose proof (Z.mod_pos_bound x (2 ^ 256)). lia.
Qed.

Lemma unchecked_dec_inc (x : uint256) :
  in_range x -> unchecked_dec (unchecked_inc x) = x.
Proof.
  unfold in_range, unchecked_dec, unchecked_inc, wrap, MAX_UINT256. intros H.
  rewrite Zminus_mod_idemp_l. replace (x + 1 - 1) with x by lia.
  apply Z.mod_small. lia.
Qed.

Lemma unchecked_inc_dec (x : uint256) :
  in_range x -> unchecked_inc (unchecked_dec x) = x.
Proof.
  unfold in_range, unchecked_dec, unchecked_inc, wrap, MAX_UINT256. intros H.
  rewrite Zplus_mod_idemp_l. replace (x - 1 + 1) with x by lia.
  apply Z.mod_small. lia.
Qed.

Lemma upd_in_range (m : Z -> Z) (k v : Z) :
  (forall a, in_range (m a)) -> in_range v -> forall a, in_range (upd m k v a).
Proof.
  intros Hm Hv a. unfold upd. destruct (a =? k); [exact Hv | apply Hm].
Qed.

Lemma transferred_well_formed (s : State) (from to : address) (id : uint256) :
  well_formed s -> well_formed (transferred s from to id).
Proof.
  intros (Hs & Hi & Hb). split; [exact Hs|]. split; [exact Hi|].
  simpl. apply upd_in_range;
    [apply upd_in_range; [exact Hb | apply wrap_in_range] | apply wrap_in_range].
Qed.

Lemma burned_well_formed (s : State) (id : uint256) :
  well_formed s -> well_formed (burned s id).
Proof.
  intros (Hs & Hi & Hb). split; [apply wrap_in_range|]. split; [exact Hi|].
  simpl. apply upd_in_range; [exact Hb | apply wrap_in_range].
Qed.

Lemma minted_well_formed (s : State) (to : address) :
  well_formed s -> well_formed (minted s to).
Proof.
  intros (Hs & Hi & Hb). split; [exact Hs|]. split; [exact Hi|].
  simpl. apply upd_in_range; [exact Hb | apply wrap_in_range].
Qed.

Lemma safeTransferFrom_success
      (s s' : State) (e : Env) (from to : address) (id : uint256) (log : list Event) :
  safeTransferFrom e from to id s = Ok tt s' log ->
  transferFrom e from to id s = Ok tt s' log.
Proof.
  intros H. unfold safeTransferFrom in H.
  destruct (Z.eq_dec (msg_sender e) (controller s)) as [Hc|Hc].
  - rewrite onlyController_pass in H by assumption. unfold bind in H.
    destruct (transferFrom e from to id s) as [[] s1 l1|err]; [|discriminate].
    unfold onERC721Received in H.
    destruct (receiver_hook e (msg_sender e) from to id); try discriminate.
    unfold ret in H. rewrite app_nil_r in H. exact H.
  - rewrite onlyController_fail in H by assumption. discriminate.
Qed.

Lemma safeMint_supply_bound
      (s s' : State) (e : Env) (to : address) (id : uint256) (log : list Event) :
  safeMint e to s = Ok id s' log -> _supply s <> MAX_UINT256.
Proof.
  intros H. tx_run.
  match goal with
  | Hb : (_supply s =? MAX_UINT256) = false |- _ => now apply Z.eqb_neq in Hb
  end.
Qed.

(** One transaction keeps a ledger well formed. *)
Lemma exec_well_formed (s : State) (ec : Env * Call) :
  well_formed s -> well_formed (exec s ec).
Proof.
  intros Hw. destruct ec as [e c]. unfold exec; simpl fst; simpl snd.
  destruct (dispatch e c s) as [[] s' log|err] eqn:H; [|exact Hw].
  simpl state_after. destruct c; simpl dispatch in H.
  - unfold forget, bind in H.
    destruct (mint e to s) as [id s1 l1|err] eqn:Hm; [|discriminate].
    unfold ret in H. injection H as Hs1 _. subst s'.
    destruct (mint_success _ _ _ _ _ _ Hm) as (_ & _ & _ & _ & _ & Hs1). subst s1.
    destruct (minted_well_formed s to Hw) as (Hs & Hi & Hb).
    split; [apply wrap_in_range|]. split; [apply wrap_in_range | exact Hb].
  - unfold forget, bind in H.
    destruct (safeMint e to s) as [id s1 l1|err] eqn:Hm; [|discriminate].
    unfold ret in H. injection H as Hs1 _. subst s'.
    pose proof (safeMint_supply_bound _ _ _ _ _ _ Hm) as Hsup.
    destruct (safeMint_success _ _ _ _ _ _ Hm) as (_ & _ & _ & Hmax & _ & _ & Hs1).
    subst s1.
    destruct Hw as (Hs & Hi & Hb).
    unfold well_formed, in_range in *. simpl.
    split; [lia|]. split; [lia|].
    apply upd_in_range; [exact Hb | apply wrap_in_range].
  - destruct (burn_success _ _ _ _ _ H) as (_ & _ & _ & Hs'). subst s'.
    now apply burned_well_formed.
  - destruct (transferFrom_success _ _ _ _ _ _ _ H) as (_ & _ & _ & _ & Hs').
    subst s'. now apply transferred_well_formed.
  - apply safeTransferFrom_success in H.
    destruct (transferFrom_success _ _ _ _ _ _ _ H) as (_ & _ & _ & _ & Hs').
    subst s'. now apply transferred_well_formed.
  - tx_run. tx_inv. exact Hw.
  - tx_run. tx_inv. exact Hw.
  - tx_run. tx_inv. exact Hw.
  - tx_run. tx_inv. exact Hw.
Qed.

Lemma reachable_well_formed (s : State) : reachable s -> well_formed s.
Proof.
  intros (o & c & calls & Hs). subst s.
  induction calls as [|ec calls IH] using rev_ind.
  - simpl. unfold well_formed, in_range. simpl.
    pose proof max_uint256_nonneg. repeat split; lia.
  - unfold run in *. rewrite fold_left_app. simpl fold_left.
    now apply exec_well_formed.
Qed.
(** ** Round trips *)

(** X9: on a reachable ledger, minting a credential and burning it at once
    restores every owner, every balance and [_supply]; what remains of the
    two calls is the advanced [_idTracker] (and a cleared approval for the
    id). *)
Theorem X9_mint_then_burn
        (s s1 : State) (e : Env) (to : address) (id : uint256) (log : list Event) :
  reachable s ->
  mint e to s = Ok id s1 log ->
  let s2 := burned s1 id in
  burn e id s1 = Ok tt s2 [Transfer to 0 id] /\
  (forall i, _ownerOf s2 i = _ownerOf s i) /\
  (forall a, _balanceOf s2 a = _balanceOf s a) /\
  _supply s2 = _supply s /\
  _idTracker s2 = unchecked_inc (_idTracker s) /\
  getApproved s2 id = 0 /\
  (forall i, i <> id -> getApproved s2 i = getApproved s i).
Proof.
  intros Hr Hm s2.
  destruct (reachable_well_formed s Hr) as (Hsup & _ & Hbal).
  destruct (mint_success _ _ _ _ _ _ Hm) as (Hc & Hto & Hfree & Hid & _ & Hs1).
  assert (Ho1 : _ownerOf s1 id = to).
  { subst s1 id. simpl. apply upd_same. }
  split; [|split; [|split; [|split; [|split; [|split]]]]].
  - rewrite (burn_ok s1 e id); [| subst s1; exact Hc | now rewrite Ho1].
    unfold s2, burned. rewrite Ho1. reflexivity.
  - intros i. unfold s2. subst s1 id. simpl. unfold upd.
    destruct (Z.eqb_spec i (_idTracker s)) as [->|]; [now rewrite Hfree | reflexivity].
  - intros a. unfold s2, burned. rewrite Ho1. subst s1. simpl. unfold upd.
    destruct (Z.eqb_spec a to) as [->|]; [|reflexivity].
    rewrite Z.eqb_refl. now apply unchecked_dec_inc.
  - unfold s2. subst s1. simpl. now apply unchecked_dec_inc.
  - unfold s2. subst s1. reflexivity.
  - unfold s2. simpl. apply upd_same.
  - intros i Hi. unfold s2. subst s1. simpl. now apply upd_other.
Qed.

Lemma X9_witness :
  let s1 := state_after (mint (env_of deployer 10) bob minted_once) minted_once in
  burn (env_of deployer 10) 1 s1 = Ok tt (burned s1 1) [Transfer bob 0 1] /\
  _supply (burned s1 1) = 1 /\ _idTracker (burned s1 1) = 2 /\
  _balanceOf (burned s1 1) bob = 0.
Proof.
  intros s1.
  assert (Hr : reachable minted_once).
  { exists deployer, deployer, [(env_of deployer 1000, call_mint alice)]. reflexivity. }
  assert (Hm : mint (env_of deployer 10) bob minted_once = Ok 1 s1 [Transfer 0 bob 1])
    by (vm_compute; reflexivity).
  destruct (X9_mint_then_burn _ _ _ _ _ _ Hr Hm) as (Hb & _ & Hbal & Hsup & Hid & _).
  split; [exact Hb|]. split; [rewrite Hsup; reflexivity|].
  split; [rewrite Hid; reflexivity|]. rewrite Hbal. reflexivity.
Defined.

(** X10: on a reachable ledger, the controller moving a credential from its
    owner [a] to [b] and back again restores every owner and every
    balance; only the per-token approval of the id is lost. *)
Theorem X10_transfer_there_and_back
        (s : State) (e : Env) (a b : address) (id : uint256) :
  reachable s ->
  msg_sender e = controller s ->
  a = _ownerOf s id -> a <> 0 -> b <> 0 ->
  let s1 := transferred s a b id in
  let s2 := transferred s1 b a id in
  transferFrom e a b id s = Ok tt s1 [Transfer a b id] /\
  transferFrom e b a id s1 = Ok tt s2 [Transfer b a id] /\
  (forall i, _ownerOf s2 i = _ownerOf s i) /\
  (forall x, _balanceOf s2 x = _balanceOf s x) /\
  getApproved s2 id = 0 /\
  (forall i, i <> id -> getApproved s2 i = getApproved s i).
Proof.
  intros Hr Hc Ha Ha0 Hb0 s1 s2.
  destruct (reachable_well_formed s Hr) as (_ & _ & Hbal).
  split; [now apply transferFrom_ok|].
  split; [apply transferFrom_ok;
          [exact Hc | unfold s1; simpl; now rewrite upd_same | exact Ha0]|].
  split; [|split; [|split]].
  - intros i. unfold s2, s1. simpl. unfold upd.
    destruct (Z.eqb_spec i id) as [->|]; [now symmetry | reflexivity].
  - intros x. unfold s2, s1. simpl. unfold upd.
    repeat match goal with
           | |- context [?u =? ?v] =>
               destruct (Z.eqb_spec u v); subst; try congruence
           end;
      rewrite ?unchecked_dec_inc, ?unchecked_inc_dec
        by (first [apply Hbal | apply wrap_in_range]);
      try reflexivity; try congruence.
  - unfold s2. simpl. apply upd_same.
  - intros i Hi. unfold s2, s1. simpl. now rewrite !upd_other by assumption.
Qed.

Lemma X10_witness :
  let s2 := transferred (transferred minted_once alice bob 0) bob alice 0 in
  transferFrom (env_of deployer 10) bob alice 0 (transferred minted_once alice bob 0)
    = Ok tt s2 [Transfer bob alice 0] /\
  _ownerOf s2 0 = alice /\ _balanceOf s2 alice = 1 /\ _balanceOf s2 bob = 0.
Proof.
  intros s2.
  assert (Hr : reachable minted_once).
  { exists deployer, deployer, [(env_of deployer 1000, call_mint alice)]. reflexivity. }
  destruct (X10_transfer_there_and_back minted_once (env_of deployer 10) alice bob 0 Hr)
    as (_ & Hback & Hown & Hbal & _); try reflexivity; try discriminate.
  split; [exact Hback|]. unfold s2. rewrite Hown, !Hbal. repeat split.
Defined.

(** ** The mint timestamp and the token URI *)

(** X11: on every reachable ledger [timestamps] is 0 at every id, so
    [tokenURI] fails with [NOT_MINTED] on an id without owner and
    otherwise calls the renderer with the id, its owner and the mint time
    0: it returns what that call returns and fails when that call reverts
    (as with no renderer set); it leaves the ledger unchanged and logs
    nothing. *)
Theorem X11_tokenURI_on_reachable (s : State) :
  reachable s ->
  (forall id, timestamps s id = 0) /\
  forall (e : Env) (id : uint256),
    tokenURI e id s =
    if _ownerOf s id =? 0 then Revert NOT_MINTED
    else match render e (renderer s) id (_ownerOf s id) 0 with
         | Some uri => Ok uri s []
         | None => Revert RendererReverted
         end.
Proof.
  intros (o & c & calls & Hs).
  assert (Ht : timestamps s = fun _ => 0).
  { subst s. induction calls as [|ec calls IH] using rev_ind; [reflexivity|].
    unfold run in *. rewrite fold_left_app. simpl fold_left.
    now rewrite exec_leaves_timestamps. }
  split; [intros id; now rewrite Ht|].
  intros e id. unfold tokenURI, ownerOf, bind, gets, require, revert, ret.
  destruct (_ownerOf s id =? 0); simpl; [reflexivity|].
  rewrite Ht.
  destruct (render e (renderer s) id (_ownerOf s id) 0); reflexivity.
Qed.

Lemma X11_witness :
  timestamps rendered_once 0 = 0 /\
  tokenURI (env_of mallory 5000) 0 rendered_once = Ok "0"%string rendered_once [] /\
  tokenURI (env_of mallory 5000) 1 rendered_once = Revert NOT_MINTED /\
  tokenURI (env_of mallory 5000) 0 minted_once = Revert RendererReverted.
Proof.
  assert (Hr : reachable rendered_once).
  { exists deployer, deployer,
      [(env_of deployer 1000, call_mint alice); (env_of deployer 1500, call_setRenderer 77)].
    reflexivity. }
  assert (Hm : reachable minted_once).
  { exists deployer, deployer, [(env_of deployer 1000, call_mint alice)]. reflexivity. }
  destruct (X11_tokenURI_on_reachable rendered_once Hr) as (Ht & Hu).
  destruct (X11_tokenURI_on_reachable minted_once Hm) as (_ & Hu').
  split; [apply Ht|]. split; [rewrite Hu; reflexivity|].
  split; [rewrite Hu; reflexivity | rewrite Hu'; reflexivity].
Defined.

(** ** What a caller cannot do *)

(** X12: a transaction sent by anyone but the controller changes no owner,
    no balance and neither counter, whichever entry point it calls. *)
Theorem X12_only_the_controller_moves_credentials
        (s : State) (e : Env) (c : Call) :
  msg_sender e <> controller s ->
  _ownerOf (exec s (e, c)) = _ownerOf s /\
  _balanceOf (exec s (e, c)) = _balanceOf s /\
  _supply (exec s (e, c)) = _supply s /\
  _idTracker (exec s (e, c)) = _idTracker s.
Proof.
  intros Hc. unfold exec; simpl fst; simpl snd.
  destruct c; simpl dispatch.
  - unfold forget, bind, mint. rewrite onlyController_fail by assumption.
    repeat split.
  - unfold forget, bind, safeMint. rewrite onlyController_fail by assumption.
    repeat split.
  - unfold burn. rewrite onlyController_fail by assumption. repeat split.
  - rewrite transferFrom_gate by assumption. repeat split.
  - unfold safeTransferFrom. rewrite onlyController_fail by assumption. repeat split.
  - tx_run; repeat split.
  - tx_run; repeat split.
  - tx_run; repeat split.
  - tx_run; repeat split.
Qed.

Lemma X12_witness :
  exec minted_once (env_of alice 10, call_transferFrom alice bob 0) = minted_once /\
  _ownerOf (exec minted_once (env_of alice 10, call_burn 0)) 0 = alice.
Proof.
  split; [reflexivity|].
  destruct (X12_only_the_controller_moves_credentials
              minted_once (env_of alice 10) (call_burn 0)) as (Ho & _);
    [vm_compute; congruence|].
  rewrite Ho. reflexivity.
Defined.

(** X13: the renderer address changes only through [setRenderer] sent by
    the owner of the contract. *)
Theorem X13_only_the_owner_sets_the_renderer
        (s : State) (e : Env) (c : Call) :
  renderer (exec s (e, c)) <> renderer s ->
  msg_sender e = owner s /\ exists r, c = call_setRenderer r /\ renderer (exec s (e, c)) = r.
Proof.
  unfold exec; simpl fst; simpl snd. intros H.
  destruct (dispatch e c s) as [[] s' log|err] eqn:Hd; [|now contradiction H].
  simpl in H |- *. destruct c; simpl dispatch in Hd.
  - exfalso. apply H. unfold forget, bind in Hd.
    destruct (mint e to s) as [id s1 l1|err] eqn:Hm; [|discriminate].
    unfold ret in Hd. injection Hd as Hs1 _. subst s'.
    destruct (mint_success _ _ _ _ _ _ Hm) as (_ & _ & _ & _ & _ & Hs1). now subst s1.
  - exfalso. apply H. unfold forget, bind in Hd.
    destruct (safeMint e to s) as [id s1 l1|err] eqn:Hm; [|discriminate].
    unfold ret in Hd. injection Hd as Hs1 _. subst s'.
    destruct (safeMint_success _ _ _ _ _ _ Hm) as (_ & _ & _ & _ & _ & _ & Hs1).
    now subst s1.
  - exfalso. apply H.
    destruct (burn_success _ _ _ _ _ Hd) as (_ & _ & _ & Hs'). now subst s'.
  - exfalso. apply H.
    destruct (transferFrom_success _ _ _ _ _ _ _ Hd) as (_ & _ & _ & _ & Hs').
    now subst s'.
  - exfalso. apply H. apply safeTransferFrom_success in Hd.
    destruct (transferFrom_success _ _ _ _ _ _ _ Hd) as (_ & _ & _ & _ & Hs').
    now subst s'.
  - exfalso. apply H. tx_run. tx_inv. reflexivity.
  - exfalso. apply H. tx_run. tx_inv. reflexivity.
  - tx_run. tx_inv. split.
    + match goal with
      | Hb : negb (msg_sender e =? owner s) = false |- _ =>
          apply negb_false_iff in Hb; now apply Z.eqb_eq in Hb
      end.
    + exists r. split; reflexivity.
  - exfalso. apply H. tx_run. tx_inv. reflexivity.
Qed.

Lemma X13_witness :
  msg_sender (env_of deployer 10) = owner minted_once /\
  exists r, call_setRenderer 77 = call_setRenderer r /\
            renderer (exec minted_once (env_of deployer 10, call_setRenderer 77)) = r.
Proof.
  apply (X13_only_the_owner_sets_the_renderer
           minted_once (env_of deployer 10) (call_setRenderer 77)).
  vm_compute. congruence.
Defined.

(** ** The footprint of a transaction *)

(** X14: one transaction touches at most one credential and two accounts:
    every id other than the one the call is about keeps its owner and its
    per-token approval, and every address other than the (at most two)
    parties of the call keeps its balance. *)
Theorem X14_footprint_of_a_transaction (s : State) (e : Env) (c : Call) :
  (forall i, i <> credential_of s c ->
             _ownerOf (exec s (e, c)) i = _ownerOf s i /\
             getApproved (exec s (e, c)) i = getApproved s i) /\
  (forall x, x <> fst (accounts_of s c) -> x <> snd (accounts_of s c) ->
             _balanceOf (exec s (e, c)) x = _balanceOf s x).
Proof.
  unfold exec; simpl fst; simpl snd.
  destruct (dispatch e c s) as [[] s' log|err] eqn:Hd;
    [|split; intros; [split|]; reflexivity].
  simpl state_after. destruct c; simpl dispatch in Hd; simpl credential_of;
    simpl accounts_of; simpl fst; simpl snd.
  - unfold forget, bind in Hd.
    destruct (mint e to s) as [id s1 l1|err] eqn:Hm; [|discriminate].
    unfold ret in Hd. injection Hd as Hs1 _. subst s'.
    destruct (mint_success _ _ _ _ _ _ Hm) as (_ & _ & _ & _ & _ & Hs1). subst s1.
    simpl. split.
    + intros i Hi. split; [now apply upd_other | reflexivity].
    + intros x Hx _. now apply upd_other.
  - unfold forget, bind in Hd.
    destruct (safeMint e to s) as [id s1 l1|err] eqn:Hm; [|discriminate].
    unfold ret in Hd. injection Hd as Hs1 _. subst s'.
    destruct (safeMint_success _ _ _ _ _ _ Hm) as (_ & _ & _ & _ & _ & _ & Hs1).
    subst s1. simpl. split.
    + intros i Hi. split; [now apply upd_other | reflexivity].
    + intros x Hx _. now apply upd_other.
  - destruct (burn_success _ _ _ _ _ Hd) as (_ & _ & _ & Hs'). subst s'.
    simpl. split.
    + intros i Hi. split; now apply upd_other.
    + intros x Hx _. now apply upd_other.
  - destruct (transferFrom_success _ _ _ _ _ _ _ Hd) as (_ & _ & _ & _ & Hs').
    subst s'. simpl. split.
    + intros i Hi. split; now apply upd_other.
    + intros x Hf Ht. now rewrite !upd_other by assumption.
  - apply safeTransferFrom_success in Hd.
    destruct (transferFrom_success _ _ _ _ _ _ _ Hd) as (_ & _ & _ & _ & Hs').
    subst s'. simpl. split.
    + intros i Hi. split; now apply upd_other.
    + intros x Hf Ht. now rewrite !upd_other by assumption.
  - tx_run. tx_inv. simpl. split.
    + intros i Hi. split; [reflexivity | now apply upd_other].
    + reflexivity.
  - tx_run. tx_inv. simpl. split; intros; [split|]; reflexivity.
  - tx_run. tx_inv. simpl. split; intros; [split|]; reflexivity.
  - tx_run. tx_inv. simpl. split; intros; [split|]; reflexivity.
Qed.

Lemma X14_witness :
  let s' := exec minted_once (env_of deployer 10, call_transferFrom alice bob 0) in
  _ownerOf s' 0 = bob /\
  _ownerOf s' 1 = _ownerOf minted_once 1 /\
  getApproved s' 1 = getApproved minted_once 1 /\
  _balanceOf s' mallory = _balanceOf minted_once mallory.
Proof.
  intros s'.
  destruct (X14_footprint_of_a_transaction
              minted_once (env_of deployer 10) (call_transferFrom alice bob 0))
    as (Hid & Hacc).
  split; [reflexivity|].
  destruct (Hid 1) as (Ho & Ha); [vm_compute; congruence|].
  split; [exact Ho|]. split; [exact Ha|].
  apply Hacc; vm_compute; congruence.
Defined.

End PassportMore.

(* ===================================================================== *)
(** * Further properties of the veNATION estimate                         *)
(* ===================================================================== *)

Module LockMore.

Import Lock.
Import LockSpec.
Local Open Scope string_scope.
Local Open Scope Z_scope.

Section Estimate.

Variable NumberToString : number -> string.

(** ** What [calculateVeNation] returns *)

(** X15: [calculateVeNation] returns the number 0, without dividing, exactly
    when the amount is falsy (0 or NaN); for every other amount, negative
    ones included, it returns a string, after exactly two divisions: the
    veNATION balance by the amount, then the elapsed time by the horizon,
    both counted from the vesting start. *)
Theorem X15_number_or_string
        (nationAmount veNationAmount time lockTime max : number) :
  (js_not nationAmount = true ->
   calculateVeNation NumberToString nationAmount veNationAmount time lockTime max
   = (VNumber (of_Z 0), [])) /\
  (js_not nationAmount = false ->
   let vestingStart :=
     result (calculateVestingStart nationAmount veNationAmount lockTime) in
   (exists str,
       result (calculateVeNation NumberToString nationAmount veNationAmount
                                 time lockTime max) = VString str) /\
   divisions (calculateVeNation NumberToString nationAmount veNationAmount
                                time lockTime max)
   = [mkDivision veNationAmount nationAmount;
      mkDivision (js_sub time vestingStart) (js_sub max vestingStart)]).
Proof.
  split; intros Hn.
  - unfold calculateVeNation. rewrite Hn. reflexivity.
  - intros vestingStart. split.
    + rewrite calculateVeNation_truthy by exact Hn. eauto.
    + unfold calculateVeNation. rewrite Hn.
      change (js_gt (of_bool false) (of_Z 0)) with false. cbv iota.
      reflexivity.
Qed.

(** ** New locks *)

Lemma minuend_finite (x y : number) :
  finite_nonzero (js_sub x y) = true -> is_finite y = true.
Proof.
  destruct y as [s|s| |s m e]; intros H; try reflexivity.
  - destruct x as [sx|sx| |sx mx ex], s; try destruct sx; discriminate.
  - destruct x as [sx|sx| |sx mx ex]; discriminate.
Qed.

(** X16: for a new lock (no veNATION balance yet) of a positive amount the
    vesting start is the lock time itself; the estimate is 0 for an expiry
    at the lock time and the amount itself for an expiry at the horizon
    [max], whatever finite span lies between the two. *)
Theorem X16_new_lock_estimate (amount lockTime max : number) :
  is_number amount = true ->
  positive_finite amount = true ->
  finite_nonzero (js_sub max lockTime) = true ->
  result (calculateVestingStart amount (of_Z 0) lockTime) = lockTime /\
  is_zero (result (finalVeNationAmount amount (of_Z 0) lockTime lockTime max)) = true /\
  result (finalVeNationAmount amount (of_Z 0) max lockTime max) = amount /\
  result (calculateVeNation NumberToString amount (of_Z 0) max lockTime max)
  = VString (toFixed NumberToString amount
                     (if js_gt amount (of_Z 1) then 2%nat else 8%nat)).
Proof.
  intros Hnum Hpos Hspan.
  pose proof (vestingStart_of_new_lock amount lockTime Hpos) as Hvs.
  assert (H1 : result (finalVeNationAmount amount (of_Z 0) max lockTime max) = amount).
  { rewrite finalVeNationAmount_result, Hvs.
    destruct (js_sub max lockTime) as [sd|sd| |sd md ed]; try discriminate.
    rewrite js_div_diag, xorb_nilpotent.
    apply js_mul_one; [exact Hnum|].
    destruct amount as [s|s| |[|] m e]; try discriminate. reflexivity. }
  split; [exact Hvs|]. split; [|split; [exact H1|]].
  - rewrite finalVeNationAmount_result, Hvs.
    rewrite (js_sub_diag lockTime (minuend_finite _ _ Hspan)).
    destruct (js_sub max lockTime) as [sd|sd| |sd md ed]; try discriminate.
    destruct amount as [s|s| |[|] m e]; try discriminate.
    reflexivity.
  - rewrite calculateVeNation_truthy by (apply positive_finite_truthy; exact Hpos).
    now rewrite H1.
Qed.

(** X17: the three examples of the lock page agree with the estimate: a
    new lock of the required stake for four years, of twice the stake for
    two years and of four times the stake for one year are each estimated
    at the required stake, for every lock time of a [Date] and every stake
    whose fourfold is a number. *)
Theorem X17_examples_of_the_page (m : positive) (e T0 : Z) :
  let veNationRequiredStake := S754_finite false m e in
  is_number veNationRequiredStake = true ->
  is_number (S754_finite false m (e + 2)) = true ->
  in_Date_range T0 ->
  let estimate (amount : number) (duration : Z) :=
    result (finalVeNationAmount amount (of_Z 0) (of_Z (T0 + duration)) (of_Z T0)
                                (of_Z (T0 + 4 * year))) in
  estimate veNationRequiredStake (4 * year) = veNationRequiredStake /\
  estimate (js_mul veNationRequiredStake (of_Z 2)) (2 * year) = veNationRequiredStake /\
  estimate (js_mul veNationRequiredStake (of_Z 4)) (1 * year) = veNationRequiredStake.
Proof.
  intros stake Hnum Hnum4 HT estimate.
  assert (Hb : bounded prec emax m e = true) by exact Hnum.
  assert (Hb4 : bounded prec emax m (e + 2) = true) by exact Hnum4.
  assert (Hb2 : bounded prec emax m (e + 1) = true).
  { apply bounded_spec. apply bounded_spec in Hb. apply bounded_spec in Hb4. lia. }
  assert (E2 : js_mul stake (of_Z 2) = S754_finite false m (e + 1))
    by (change (of_Z 2) with (pow2 false 1); apply js_mul_pow2; exact Hb2).
  assert (E4 : js_mul stake (of_Z 4) = S754_finite false m (e + 2))
    by (change (of_Z 4) with (pow2 false 2); apply js_mul_pow2; exact Hb4).
  assert (Hest : forall amount duration,
             positive_finite amount = true -> Z.abs duration <= 8 * year ->
             estimate amount duration
             = js_mul amount (js_div (of_Z duration) (of_Z fourYears))).
  { intros amount duration Hp Hd. unfold estimate.
    rewrite finalVeNationAmount_result, vestingStart_of_new_lock by exact Hp.
    rewrite !of_Z_sub by date_safe.
    replace (T0 + duration - T0) with duration by lia.
    replace (T0 + 4 * year - T0) with fourYears by (unfold fourYears, year; lia).
    reflexivity. }
  split; [|split].
  - rewrite Hest by (reflexivity || (unfold year; lia)).
    replace (js_div (of_Z (4 * year)) (of_Z fourYears)) with (pow2 false 0)
      by (vm_compute; reflexivity).
    apply js_mul_one; [exact Hnum | reflexivity].
  - rewrite E2, Hest by (reflexivity || (unfold year; lia)).
    replace (js_div (of_Z (2 * year)) (of_Z fourYears)) with (pow2 false (-1))
      by (vm_compute; reflexivity).
    rewrite js_mul_pow2 by (replace (e + 1 + -1) with e by lia; exact Hb).
    unfold stake. f_equal. lia.
  - rewrite E4, Hest by (reflexivity || (unfold year; lia)).
    replace (js_div (of_Z (1 * year)) (of_Z fourYears)) with (pow2 false (-2))
      by (vm_compute; reflexivity).
    rewrite js_mul_pow2 by (replace (e + 2 + -2) with e by lia; exact Hb).
    unfold stake. f_equal. lia.
Qed.

(** ** The shape of the ramp *)

(** X20: the estimate is not clamped to the interval from 0 to the amount:
    for a new lock with the horizon four years after the lock time, an
    expiry eight years after the lock time is estimated at twice the
    amount, and an expiry four years before it at minus the amount. *)
Theorem X20_estimate_is_not_clamped (m : positive) (e T0 : Z) :
  let amount := S754_finite false m e in
  is_number amount = true ->
  is_number (S754_finite false m (e + 1)) = true ->
  in_Date_range T0 ->
  let estimate (time : Z) :=
    result (finalVeNationAmount amount (of_Z 0) (of_Z time) (of_Z T0)
                                (of_Z (T0 + 4 * year))) in
  estimate (T0 + 8 * year) = js_mul amount (of_Z 2) /\
  js_gt (estimate (T0 + 8 * year)) amount = true /\
  estimate (T0 - 4 * year) = SFopp amount /\
  js_gt (of_Z 0) (estimate (T0 - 4 * year)) = true.
Proof.
  intros amount Hnum Hnum2 HT estimate.
  assert (Hb : bounded prec emax m e = true) by exact Hnum.
  assert (Hb2 : bounded prec emax m (e + 1) = true) by exact Hnum2.
  assert (E2 : js_mul amount (of_Z 2) = S754_finite false m (e + 1))
    by (change (of_Z 2) with (pow2 false 1); apply js_mul_pow2; exact Hb2).
  assert (Hest : forall time,
             Z.abs (time - T0) <= 8 * year ->
             estimate time
             = js_mul amount (js_div (of_Z (time - T0)) (of_Z fourYears))).
  { intros time Hd. unfold estimate.
    rewrite finalVeNationAmount_result, vestingStart_of_new_lock by reflexivity.
    rewrite !of_Z_sub by date_safe.
    replace (T0 + 4 * year - T0) with fourYears by (unfold fourYears, year; lia).
    reflexivity. }
  assert (H8 : estimate (T0 + 8 * year) = S754_finite false m (e + 1)).
  { rewrite Hest by (unfold year; lia).
    replace (T0 + 8 * year - T0) with (8 * year) by lia.
    replace (js_div (of_Z (8 * year)) (of_Z fourYears)) with (pow2 false 1)
      by (vm_compute; reflexivity).
    apply js_mul_pow2. exact Hb2. }
  assert (H4 : estimate (T0 - 4 * year) = S754_finite true m e).
  { rewrite Hest by (unfold year; lia).
    replace (T0 - 4 * year - T0) with (- (4 * year)) by lia.
    replace (js_div (of_Z (- (4 * year))) (of_Z fourYears)) with (pow2 true 0)
      by (vm_compute; reflexivity).
    unfold amount. rewrite js_mul_pow2 by (rewrite Z.add_0_r; exact Hb).
    rewrite Z.add_0_r. reflexivity. }
  split; [rewrite H8, E2; reflexivity|].
  split; [|split; [exact H4|rewrite H4; reflexivity]].
  rewrite H8. unfold js_gt, SFltb, SFcompare, amount.
  replace (e ?= e + 1) with Lt by (symmetry; apply Z.compare_lt_iff; lia).
  reflexivity.
Qed.

(** ** Edges *)

(** X21: [calculateVestingStart] has no guard of its own: with an amount
    that is a zero and a finite lock time it returns NaN when the veNATION
    balance is a zero or NaN, and otherwise an infinity: minus infinity
    when the balance and the zero have the same sign, plus infinity when
    their signs differ. *)
Theorem X21_vesting_start_of_a_zero_amount (s0 : bool) (veNationAmount lockTime : number) :
  is_finite lockTime = true ->
  result (calculateVestingStart (S754_zero s0) veNationAmount lockTime)
  = match veNationAmount with
    | S754_zero _ | S754_nan => S754_nan
    | S754_infinity s | S754_finite s _ _ => S754_infinity (negb (xorb s s0))
    end.
Proof.
  intros Hl. rewrite calculateVestingStart_result, fourYears_finite.
  destruct lockTime as [sl|sl| |sl ml el]; try discriminate;
    destruct veNationAmount as [s|s| |s m e]; try reflexivity;
    destruct s, s0; reflexivity.
Qed.

(** X22: when the horizon coincides with the computed vesting start, the
    second division is by zero and [calculateVeNation] returns, for a
    positive amount, no digits: "Infinity" when the expiry minus the
    vesting start is positive, "-Infinity" when it is negative and "NaN"
    when it is a zero or NaN. *)
Theorem X22_horizon_at_the_vesting_start
        (amount veNationAmount time lockTime : number) :
  positive_finite amount = true ->
  let vestingStart := result (calculateVestingStart amount veNationAmount lockTime) in
  is_finite vestingStart = true ->
  result (calculateVeNation NumberToString amount veNationAmount time lockTime
                            vestingStart)
  = VString match js_sub time vestingStart with
            | S754_zero _ | S754_nan => "NaN"
            | S754_infinity s | S754_finite s _ _ =>
                if s then "-Infinity" else "Infinity"
            end.
Proof.
  intros Hpos vestingStart Hfin.
  rewrite calculateVeNation_truthy by (apply positive_finite_truthy; exact Hpos).
  rewrite finalVeNationAmount_result. fold vestingStart.
  rewrite (js_sub_diag vestingStart Hfin).
  destruct amount as [sa|sa| |[|] m e]; try discriminate.
  destruct (js_sub time vestingStart) as [s|s| |s md ed]; try reflexivity;
    destruct s; reflexivity.
Qed.

End Estimate.

Lemma X15_witness :
  calculateVeNation exponent_notation S754_nan (of_Z 250) (of_Z T2022) (of_Z T2022)
                    (of_Z (T2022 + fourYears))
  = (VNumber (of_Z 0), []) /\
  result (calculateVeNation exponent_notation (of_Z (-1000)) (of_Z 0)
                            (of_Z (T2022 + 2 * year)) (of_Z T2022)
                            (of_Z (T2022 + fourYears)))
  = VString "-500.00000000" /\
  List.length (divisions (calculateVeNation exponent_notation (of_Z (-1000)) (of_Z 0)
                                            (of_Z (T2022 + 2 * year)) (of_Z T2022)
                                            (of_Z (T2022 + fourYears))))
  = 2%nat.
Proof.
  split.
  - apply (proj1 (X15_number_or_string exponent_notation S754_nan (of_Z 250) (of_Z T2022)
                                       (of_Z T2022) (of_Z (T2022 + fourYears)))).
    reflexivity.
  - destruct (proj2 (X15_number_or_string
                       exponent_notation (of_Z (-1000)) (of_Z 0)
                       (of_Z (T2022 + 2 * year)) (of_Z T2022)
                       (of_Z (T2022 + fourYears))) eq_refl) as (_ & Hd).
    split; [vm_compute; reflexivity|].
    rewrite Hd. reflexivity.
Defined.

Lemma X16_witness :
  result (calculateVestingStart (of_Z 19) (of_Z 0) (of_Z T2022)) = of_Z T2022 /\
  result (calculateVeNation exponent_notation (of_Z 19) (of_Z 0)
                            (of_Z (T2022 + fourYears)) (of_Z T2022)
                            (of_Z (T2022 + fourYears)))
  = VString "19.00".
Proof.
  destruct (X16_new_lock_estimate exponent_notation (of_Z 19) (of_Z T2022)
                                  (of_Z (T2022 + fourYears)) eq_refl eq_refl eq_refl)
    as (Hvs & _ & _ & H).
  split; [exact Hvs | exact H].
Defined.

Lemma X17_witness :
  result (finalVeNationAmount (js_mul (of_Z 2) (of_Z 4)) (of_Z 0)
                              (of_Z (T2022 + 1 * year)) (of_Z T2022)
                              (of_Z (T2022 + 4 * year)))
  = of_Z 2.
Proof.
  assert (HT : in_Date_range T2022) by (unfold in_Date_range, T2022; simpl; lia).
  exact (proj2 (proj2 (X17_examples_of_the_page 4503599627370496 (-51) T2022
                                                eq_refl eq_refl HT))).
Defined.

Lemma X20_witness :
  result (finalVeNationAmount (of_Z 1000) (of_Z 0) (of_Z (T2022 + 8 * year))
                              (of_Z T2022) (of_Z (T2022 + 4 * year)))
  = of_Z 2000 /\
  result (finalVeNationAmount (of_Z 1000) (of_Z 0) (of_Z (T2022 - 4 * year))
                              (of_Z T2022) (of_Z (T2022 + 4 * year)))
  = of_Z (-1000).
Proof.
  assert (HT : in_Date_range T2022) by (unfold in_Date_range, T2022; simpl; lia).
  destruct (X20_estimate_is_not_clamped 8796093022208000 (-43) T2022 eq_refl eq_refl HT)
    as (H8 & _ & H4 & _).
  split; [exact H8 | exact H4].
Defined.

Lemma X21_witness :
  result (calculateVestingStart (of_Z 0) (of_Z 250) (of_Z T2022)) = S754_infinity true /\
  result (calculateVestingStart (S754_zero true) (of_Z 250) (of_Z T2022))
  = S754_infinity false /\
  result (calculateVestingStart (of_Z 0) (of_Z 0) (of_Z T2022)) = S754_nan.
Proof.
  split; [|split].
  - exact (X21_vesting_start_of_a_zero_amount false (of_Z 250) (of_Z T2022) eq_refl).
  - exact (X21_vesting_start_of_a_zero_amount true (of_Z 250) (of_Z T2022) eq_refl).
  - exact (X21_vesting_start_of_a_zero_amount false (of_Z 0) (of_Z T2022) eq_refl).
Defined.

Lemma X22_witness :
  result (calculateVeNation exponent_notation (of_Z 1000) (of_Z 0)
                            (of_Z (T2022 + 1)) (of_Z T2022) (of_Z T2022))
  = VString "Infinity" /\
  result (calculateVeNation exponent_notation (of_Z 43) (of_Z 23) (of_Z 1)
                            (of_Z 67517144000)
                            (result (calculateVestingStart (of_Z 43) (of_Z 23)
                                                           (of_Z 67517144000))))
  = VString "Infinity".
Proof.
  split.
  - exact (X22_horizon_at_the_vesting_start exponent_notation (of_Z 1000) (of_Z 0)
             (of_Z (T2022 + 1)) (of_Z T2022) eq_refl eq_refl).
  - exact (X22_horizon_at_the_vesting_start exponent_notation (of_Z 43) (of_Z 23)
             (of_Z 1) (of_Z 67517144000) eq_refl eq_refl).
Defined.

End LockMore.
